(** * Cancel-Letter-Generator: the letter template and its callers

    A shallow embedding of [src/services/geminiService.ts] together with the
    types of [types.ts].  JavaScript strings are modelled as [string]; every
    character stands for one code unit below 256.  The current date, the
    [API_KEY] of the process environment, the console and the remote model
    are the only things outside the functions themselves; they are made
    explicit below.

    The definitions come first: the string primitives, the data model, the
    three functions of the service, and the notions the statements use.  The
    lemmas and the theorems about C1 to C10 follow. *)

From Stdlib Require Import String Ascii List Bool Arith Lia.
Import ListNotations.
Local Open Scope list_scope.
Local Open Scope string_scope.

(** * Part I: definitions *)

(** ** Strings

    The operations the source applies to strings (truthiness, [||],
    [split]) and the notions the statements need (prefix, containment,
    suffix, number of occurrences), named after the JavaScript methods that
    compute them. *)

(** The line feed written [\n] in the source. *)
Abbreviation LF := (String "010"%char EmptyString).

(** The double quote character. *)
Abbreviation DQ := (String "034"%char EmptyString).

(** A string is truthy exactly when it is not empty. *)
Definition truthy (s : string) : bool :=
  match s with
  | EmptyString => false
  | String _ _ => true
  end.

(** [a || b] on two strings. *)
Definition js_or (a b : string) : string :=
  if truthy a then a else b.

(** [s.startsWith(p)]. *)
Fixpoint startsWith (p s : string) : bool :=
  match p with
  | EmptyString => true
  | String a p' =>
      match s with
      | EmptyString => false
      | String b s' => Ascii.eqb a b && startsWith p' s'
      end
  end.

(** [s.includes(n)]: [n] occurs somewhere in [s]. *)
Fixpoint includes (n s : string) : bool :=
  startsWith n s ||
  match s with
  | EmptyString => false
  | String _ s' => includes n s'
  end.

(** [s.endsWith(p)]. *)
Fixpoint endsWith (p s : string) : bool :=
  String.eqb p s ||
  match s with
  | EmptyString => false
  | String _ s' => endsWith p s'
  end.

(** The number of positions of [s] at which [n] occurs. *)
Fixpoint occurrences (n s : string) : nat :=
  (if startsWith n s then 1 else 0) +
  match s with
  | EmptyString => 0
  | String _ s' => occurrences n s'
  end.

(** [s.split('\n')], with the part of the current line read so far in
    [cur]. *)
Fixpoint split_from (cur s : string) : list string :=
  match s with
  | EmptyString => [cur]
  | String c s' =>
      if Ascii.eqb c "010"
      then cur :: split_from EmptyString s'
      else split_from (cur ++ String c EmptyString) s'
  end.

Definition split_lines (s : string) : list string :=
  split_from EmptyString s.

(** The string without its first [k] characters. *)
Fixpoint skip (k : nat) (s : string) : string :=
  match k, s with
  | S k', String _ s' => skip k' s'
  | _, _ => s
  end.

(** The non-empty suffixes of a string. *)
Fixpoint tails (s : string) : list string :=
  match s with
  | EmptyString => []
  | String _ s' => s :: tails s'
  end.

(** The string without its last character. *)
Fixpoint dropLast (s : string) : string :=
  match s with
  | EmptyString => EmptyString
  | String c EmptyString => EmptyString
  | String c s' => String c (dropLast s')
  end.

(** ** The data model of [types.ts] *)

Inductive Tone : Type :=
| FORMAL
| FIRM
| FRIENDLY
| DIRECT.

(** The string value of each member of the enum. *)
Definition toneValue (t : Tone) : string :=
  match t with
  | FORMAL => "Formal"
  | FIRM => "Firm & Legalistic"
  | FRIENDLY => "Polite & Friendly"
  | DIRECT => "Direct & Concise"
  end.

(** [tone === Tone.X] compares the string values. *)
Definition tone_eqb (a b : Tone) : bool :=
  String.eqb (toneValue a) (toneValue b).

Record UserDetails : Type := mkUser {
  fullName : string;
  email : string;
  address : string;
  phone : string
}.

Record SubscriptionDetails : Type := mkSubscription {
  serviceName : string;
  accountNumber : string;
  subscriptionPlan : string;
  cancellationReason : string;
  effectiveDate : string
}.

Record LetterData : Type := mkLetterData {
  user : UserDetails;
  subscription : SubscriptionDetails;
  tone : Tone
}.

(** ** [getTemplateLetter] *)

(** Lines 9-16: the addendum chosen by the tone. *)
Definition toneAdjustment (t : Tone) : string :=
  if tone_eqb t FIRM then
    LF ++ "Please be advised that this request is final. I expect a written confirmation of this cancellation and an assurance that no further charges will be applied to my account. If any further unauthorized billing occurs, I will be forced to escalate this matter."
  else if tone_eqb t FRIENDLY then
    LF ++ "I have enjoyed using your service, but I have decided to cancel at this time. Thank you for your support and assistance with this request."
  else if tone_eqb t DIRECT then
    LF ++ "Please process this request immediately. No further communication is required other than a confirmation of termination."
  else EmptyString.

(** Line 32: the reason slot of the template. *)
Definition reasonSlot (reason : string) : string :=
  if truthy reason
  then "Reason for cancellation: " ++ reason ++ LF
  else EmptyString.

(** Lines 5-40.  [date] is the value of [new Date().toLocaleDateString()]
    at the time of the call. *)
Definition getTemplateLetter (data : LetterData) (date : string) : string :=
  let user := user data in
  let subscription := subscription data in
  let tone := tone data in
  let toneAdjustment := toneAdjustment tone in
  fullName user ++ LF ++
  js_or (address user) EmptyString ++ LF ++
  email user ++ LF ++
  js_or (phone user) EmptyString ++ LF ++
  LF ++
  "Date: " ++ date ++ LF ++
  LF ++
  "RE: Cancellation of " ++ serviceName subscription ++ " Subscription" ++ LF ++
  "Account Number: " ++ js_or (accountNumber subscription) "N/A" ++ LF ++
  LF ++
  "To the Customer Service Team at " ++ serviceName subscription ++ "," ++ LF ++
  LF ++
  "I am writing to formally request the cancellation of my " ++
    js_or (subscriptionPlan subscription) EmptyString ++
    " subscription, effective " ++ effectiveDate subscription ++ "." ++ LF ++
  LF ++
  reasonSlot (cancellationReason subscription) ++ LF ++
  "Please stop all recurring payments associated with this account immediately. " ++
    toneAdjustment ++ LF ++
  LF ++
  "Thank you for your prompt attention to this matter." ++ LF ++
  LF ++
  "Sincerely," ++ LF ++
  LF ++
  fullName user.

(** ** The reason suggestions: parsing the model's answer *)

(** The code units below 256 that [trim] and the [\s] of a regular expression
    treat as white space: TAB, LF, VT, FF, CR, SPACE and NBSP. *)
Definition isWhiteSpace (c : ascii) : bool :=
  let k := nat_of_ascii c in
  ((9 <=? k)%nat && (k <=? 13)%nat) || (k =? 32)%nat || (k =? 160)%nat.

(** [\d]: the ten ASCII digits. *)
Definition isDigit (c : ascii) : bool :=
  let k := nat_of_ascii c in
  (48 <=? k)%nat && (k <=? 57)%nat.

Fixpoint trimStart (s : string) : string :=
  match s with
  | EmptyString => EmptyString
  | String c s' => if isWhiteSpace c then trimStart s' else s
  end.

Fixpoint trimEnd (s : string) : string :=
  match s with
  | EmptyString => EmptyString
  | String c s' =>
      match trimEnd s' with
      | EmptyString => if isWhiteSpace c then EmptyString else String c EmptyString
      | r => String c r
      end
  end.

(** [s.trim()]. *)
Definition trim (s : string) : string := trimEnd (trimStart s).

Fixpoint skipDigits (s : string) : string :=
  match s with
  | EmptyString => EmptyString
  | String c s' => if isDigit c then skipDigits s' else s
  end.

(** [line.replace(/^\d+\.\s*/, '')]: a run of digits at the very start of
    the line, the dot after it and the white space after the dot are removed;
    a line that does not start this way is returned as it is. *)
Definition stripNumbering (line : string) : string :=
  match line with
  | String c s' =>
      if isDigit c then
        match skipDigits s' with
        | String "." rest => trimStart rest
        | _ => line
        end
      else line
  | EmptyString => line
  end.

Definition defaultReasons : list string :=
  [ "Cost is too high"; "No longer using the service";
    "Found a better alternative"; "Moving to a different location" ].

(** Line 104: [response.text || ""], where [text] may be undefined. *)
Definition responseText (response : option string) : string :=
  match response with
  | Some t => js_or t EmptyString
  | None => EmptyString
  end.

(** Line 105. *)
Definition parseReasons (text : string) : list string :=
  map (fun line => trim (stripNumbering line))
      (filter (fun line => (0 <? String.length (trim line))%nat) (split_lines text)).

(** Line 106. *)
Definition chooseReasons (lines : list string) : list string :=
  if (0 <? List.length lines)%nat then firstn 4 lines else defaultReasons.

(** ** The prompts sent to the model *)

(** Lines 53-76. *)
Definition letterPrompt (data : LetterData) : string :=
  LF ++
  "    Generate a professional subscription cancellation letter based on the following details:" ++ LF ++
  "    " ++ LF ++
  "    User Name: " ++ fullName (user data) ++ LF ++
  "    User Email: " ++ email (user data) ++ LF ++
  "    User Phone: " ++ phone (user data) ++ LF ++
  "    User Address: " ++ address (user data) ++ LF ++
  "    " ++ LF ++
  "    Service Provider: " ++ serviceName (subscription data) ++ LF ++
  "    Account/Member Number: " ++ accountNumber (subscription data) ++ LF ++
  "    Plan Type: " ++ subscriptionPlan (subscription data) ++ LF ++
  "    Reason for Cancellation: " ++
    js_or (cancellationReason (subscription data)) "Not specified" ++ LF ++
  "    Requested End Date: " ++ effectiveDate (subscription data) ++ LF ++
  "    " ++ LF ++
  "    Tone: " ++ toneValue (tone data) ++ LF ++
  "    " ++ LF ++
  "    Rules for the letter:" ++ LF ++
  "    1. Include standard business letter formatting." ++ LF ++
  "    2. Be clear about the request to terminate services and stop all future billing." ++ LF ++
  "    3. If the tone is 'Firm & Legalistic', mention consumer rights and request written confirmation." ++ LF ++
  "    4. If the tone is 'Polite & Friendly', thank them for the service but state the need to move on." ++ LF ++
  "    5. Ensure the letter is complete and ready for use." ++ LF ++
  "    6. Do not use placeholders like [Your Name]." ++ LF ++
  "  ".

(** Line 97. *)
Definition reasonsPrompt (serviceName : string) : string :=
  "Provide 4 short, professional reasons someone might want to cancel a subscription for " ++
  DQ ++ serviceName ++ DQ ++ ". Return them as a simple list.".

Definition geminiModel : string := "gemini-3-flash-preview".

(** ** Effects: the world the functions run in *)

(** What a call yields: a value, or a thrown error (a rejected promise). *)
Inductive Result (A : Type) : Type :=
| Return (a : A)
| Throw (e : string).

Arguments Return {A} a.
Arguments Throw {A} e.

Inductive LogEntry : Type :=
| Warn (message : string)
| Error (message : string) (error : string).

(** [input] is the object graph the caller hands over by reference,
    [API_KEY] is [process.env.API_KEY], [localeDate] is what
    [new Date().toLocaleDateString()] yields, [remote] is the answer of
    [ai.models.generateContent] to a key, a model name and a prompt (the
    [text] of the response, which may be undefined, or the error thrown), and
    [console] collects what is logged. *)
Record World : Type := mkWorld {
  input : LetterData;
  API_KEY : option string;
  localeDate : string;
  remote : string -> string -> string -> Result (option string);
  console : list LogEntry
}.

(** A computation: from a world to what it yields and the world it leaves.
    [await] is sequencing. *)
Definition JS (A : Type) : Type := World -> Result A * World.

Definition ret {A : Type} (a : A) : JS A := fun w => (Return a, w).

Definition bind {A B : Type} (c : JS A) (k : A -> JS B) : JS B :=
  fun w =>
    match c w with
    | (Return a, w') => k a w'
    | (Throw e, w') => (Throw e, w')
    end.

(** [try { c } catch (error) { handler }]. *)
Definition try_catch {A : Type} (c : JS A) (handler : string -> JS A) : JS A :=
  fun w =>
    match c w with
    | (Return a, w') => (Return a, w')
    | (Throw e, w') => handler e w'
    end.

Declare Scope js_scope.
Delimit Scope js_scope with js.
Notation "x <- c ;; k" := (bind c (fun x => k))
  (at level 61, c at next level, right associativity) : js_scope.
Notation "c ;; k" := (bind c (fun _ => k))
  (at level 61, right associativity) : js_scope.

(** Reading the object [data] points to. *)
Definition read_input : JS LetterData := fun w => (Return (input w), w).

(** [new Date().toLocaleDateString()]. *)
Definition toLocaleDateString : JS string := fun w => (Return (localeDate w), w).

(** [process.env.API_KEY]. *)
Definition env_API_KEY : JS (option string) := fun w => (Return (API_KEY w), w).

(** [console.warn] and [console.error]. *)
Definition console_log (entry : LogEntry) : JS unit :=
  fun w =>
    (Return tt,
     mkWorld (input w) (API_KEY w) (localeDate w) (remote w)
             (console w ++ [entry])%list).

(** [await ai.models.generateContent({ model, contents })] on the client
    made from [apiKey], which only holds the key; the value is
    [response.text]. *)
Definition generateContent (apiKey model contents : string) : JS (option string) :=
  fun w => (remote w apiKey model contents, w).

(** [!apiKey || apiKey === 'undefined'] fails exactly on a usable key. *)
Definition credential (apiKey : option string) : option string :=
  match apiKey with
  | None => None
  | Some k =>
      if negb (truthy k) || String.eqb k "undefined" then None else Some k
  end.

Module Effects.

Local Open Scope js_scope.

(** Lines 5-40 with their reads: the properties of [data] and the date. *)
Definition getTemplateLetter : JS string :=
  data <- read_input ;;
  date <- toLocaleDateString ;;
  ret (getTemplateLetter data date).

(** Lines 42-88. *)
Definition generateCancellationLetter : JS string :=
  apiKey <- env_API_KEY ;;
  match credential apiKey with
  | None =>
      console_log (Warn "API Key missing, falling back to local template.") ;;
      getTemplateLetter
  | Some apiKey =>
      data <- read_input ;;
      let prompt := letterPrompt data in
      try_catch
        (response <- generateContent apiKey geminiModel prompt ;;
         match response with
         | Some text => if truthy text then ret text else getTemplateLetter
         | None => getTemplateLetter
         end)
        (fun error =>
           console_log (Error "Gemini API Error, using fallback template:" error) ;;
           getTemplateLetter)
  end.

(** Lines 90-110. *)
Definition suggestCancellationReason (serviceName : string) : JS (list string) :=
  apiKey <- env_API_KEY ;;
  match credential apiKey with
  | None => ret defaultReasons
  | Some apiKey =>
      let prompt := reasonsPrompt serviceName in
      try_catch
        (response <- generateContent apiKey geminiModel prompt ;;
         let text := responseText response in
         let lines := parseReasons text in
         ret (chooseReasons lines))
        (fun _ => ret defaultReasons)
  end.

End Effects.

(** The world after [n] calls in a row. *)
Fixpoint repeat_call {A : Type} (n : nat) (c : JS A) (w : World) : World :=
  match n with
  | 0 => w
  | S n' => repeat_call n' c (snd (c w))
  end.

(** ** Templates as literals and holes

    A template is a sequence of literal pieces and of holes filled with
    values the template does not control.  An occurrence of a text [n] in the
    rendered template either lies inside one piece or straddles a border.
    The two checks below are computed on the literals alone and exclude every
    straddling occurrence, whatever the holes contain. *)

(** No suffix of the literal [x] is the beginning of an occurrence of [n]
    that would have to continue past the end of [x]. *)
Definition tail_clear (n x : string) : bool :=
  forallb (fun t => negb (startsWith t n) || startsWith n t) (tails x).

(** No proper ending of [n] can begin a text that starts with the literal
    [l]: neither fits into the other. *)
Definition head_clear (n l : string) : bool :=
  forallb (fun v => negb (startsWith v l || startsWith l v)) (tails (skip 1 n)).

(** A piece of a template: a literal of the template, or a hole with the
    value that fills it. *)
Inductive piece : Type :=
| Lit (s : string)
| Hole (s : string).

Definition text (p : piece) : string :=
  match p with
  | Lit s => s
  | Hole s => s
  end.

(** The text a template evaluates to. *)
Fixpoint render (ps : list piece) : string :=
  match ps with
  | [] => EmptyString
  | p :: ps' => text p ++ render ps'
  end.

(** The values in the holes, in order. *)
Fixpoint holes (ps : list piece) : list string :=
  match ps with
  | [] => []
  | Lit _ :: ps' => holes ps'
  | Hole s :: ps' => s :: holes ps'
  end.

(** The occurrences of [n] inside the literal pieces. *)
Fixpoint literal_occurrences (n : string) (ps : list piece) : nat :=
  match ps with
  | [] => 0
  | Lit s :: ps' => occurrences n s + literal_occurrences n ps'
  | Hole _ :: ps' => literal_occurrences n ps'
  end.

(** Every literal is [tail_clear], and every hole is followed by the end of
    the template or by a literal that is [head_clear]. *)
Fixpoint borders_clear (n : string) (ps : list piece) : bool :=
  match ps with
  | [] => true
  | Lit s :: ps' => tail_clear n s && borders_clear n ps'
  | Hole _ :: ps' =>
      match ps' with
      | [] => true
      | Lit l :: _ => head_clear n l
      | Hole _ :: _ => false
      end && borders_clear n ps'
  end.

(** The piece with its hole emptied. *)
Definition blank (p : piece) : piece :=
  match p with
  | Lit s => Lit s
  | Hole _ => Hole EmptyString
  end.

(** ** The letter as literals and holes *)

(** The text after the reason slot, up to the closing name. *)
Definition afterReason (t : Tone) : string :=
  LF ++
  "Please stop all recurring payments associated with this account immediately. " ++
  toneAdjustment t ++ LF ++
  LF ++
  "Thank you for your prompt attention to this matter." ++ LF ++
  LF ++
  "Sincerely," ++ LF ++
  LF.

(** The template literal of lines 18-39 up to the reason slot: its literals
    and, in its holes, the values it interpolates. *)
Definition beforeReasonPieces (data : LetterData) (date : string) : list piece :=
  let u := user data in
  let s := subscription data in
  [ Hole (fullName u); Lit LF;
    Hole (address u); Lit LF;
    Hole (email u); Lit LF;
    Hole (phone u); Lit (LF ++ LF ++ "Date: ");
    Hole date; Lit (LF ++ LF ++ "RE: Cancellation of ");
    Hole (serviceName s); Lit (" Subscription" ++ LF ++ "Account Number: ");
    Hole (js_or (accountNumber s) "N/A");
    Lit (LF ++ LF ++ "To the Customer Service Team at ");
    Hole (serviceName s);
    Lit ("," ++ LF ++ LF ++ "I am writing to formally request the cancellation of my ");
    Hole (subscriptionPlan s); Lit " subscription, effective ";
    Hole (effectiveDate s); Lit ("." ++ LF ++ LF) ].

(** The whole template literal; [getTemplateLetter_pieces] below shows that
    it renders to the letter. *)
Definition letterPieces (data : LetterData) (date : string) : list piece :=
  (beforeReasonPieces data date ++
   (if truthy (cancellationReason (subscription data))
    then [ Lit "Reason for cancellation: ";
           Hole (cancellationReason (subscription data));
           Lit (LF ++ afterReason (tone data)) ]
    else [ Lit (afterReason (tone data)) ]) ++
   [ Hole (fullName (user data)) ])%list.

(** The pieces of the letter with its holes emptied: they depend on the tone
    and on whether a reason is given, and on nothing else. *)
Definition skeleton (t : Tone) (reasonGiven : bool) : list piece :=
  map blank
    (letterPieces
       (mkLetterData
          (mkUser EmptyString EmptyString EmptyString EmptyString)
          (mkSubscription EmptyString EmptyString EmptyString
             (if reasonGiven then "x" else EmptyString) EmptyString)
          t)
       EmptyString).

(** The checks of [borders_clear] for every shape the letter can take. *)
Definition template_clear (n : string) : bool :=
  truthy n &&
  forallb (fun t => borders_clear n (skeleton t true) &&
                    borders_clear n (skeleton t false))
          [FORMAL; FIRM; FRIENDLY; DIRECT].

(** The text of the letter up to the line before the reason slot. *)
Definition beforeReason (data : LetterData) (date : string) : string :=
  fullName (user data) ++ LF ++
  js_or (address (user data)) EmptyString ++ LF ++
  email (user data) ++ LF ++
  js_or (phone (user data)) EmptyString ++ LF ++
  LF ++
  "Date: " ++ date ++ LF ++
  LF ++
  "RE: Cancellation of " ++ serviceName (subscription data) ++ " Subscription" ++ LF ++
  "Account Number: " ++ js_or (accountNumber (subscription data)) "N/A" ++ LF ++
  LF ++
  "To the Customer Service Team at " ++ serviceName (subscription data) ++ "," ++ LF ++
  LF ++
  "I am writing to formally request the cancellation of my " ++
    js_or (subscriptionPlan (subscription data)) EmptyString ++
    " subscription, effective " ++ effectiveDate (subscription data) ++ ".".

(** ** Notions the statements use *)

(** Every value the template interpolates. *)
Definition interpolated (data : LetterData) (date : string) : list string :=
  [ fullName (user data); address (user data); email (user data);
    phone (user data); date;
    serviceName (subscription data); accountNumber (subscription data);
    subscriptionPlan (subscription data); effectiveDate (subscription data);
    cancellationReason (subscription data) ].

(** The interpolated values other than the cancellation reason. *)
Definition otherValues (data : LetterData) (date : string) : list string :=
  [ fullName (user data); address (user data); email (user data);
    phone (user data); date;
    serviceName (subscription data); accountNumber (subscription data);
    subscriptionPlan (subscription data); effectiveDate (subscription data) ].

(** The request with another cancellation reason. *)
Definition withReason (reason : string) (data : LetterData) : LetterData :=
  mkLetterData
    (user data)
    (mkSubscription
       (serviceName (subscription data)) (accountNumber (subscription data))
       (subscriptionPlan (subscription data)) reason
       (effectiveDate (subscription data)))
    (tone data).

(** The label the reason slot writes. *)
Definition reasonLabel : string := "Reason for cancellation:".

(** The lines the reason slot adds to the letter. *)
Definition reasonLines (reason : string) : list string :=
  if truthy reason
  then split_lines ("Reason for cancellation: " ++ reason)
  else [].

(** The number of lines equal to [x]. *)
Definition line_count (x : string) (lines : list string) : nat :=
  List.length (filter (String.eqb x) lines).

(** The addendum of a tone without the line feed it starts with. *)
Definition addendumParagraph (t : Tone) : string := skip 1 (toneAdjustment t).

(** The paragraph of an addendum without its final full stop. *)
Definition addendumStem (t : Tone) : string := dropLast (addendumParagraph t).

(** The lines the addendum of a tone adds to the letter. *)
Definition addendumLines (t : Tone) : list string :=
  if tone_eqb t FORMAL then [] else [addendumParagraph t].

(** The instruction to stop the payments, with the space the template
    writes after it. *)
Definition haltInstruction : string :=
  "Please stop all recurring payments associated with this account immediately. ".

(** The closing paragraph. *)
Definition thanksLine : string :=
  "Thank you for your prompt attention to this matter.".

(** What the template shows after [Account Number: ]. *)
Definition shownAccountNumber (s : SubscriptionDetails) : string :=
  js_or (accountNumber s) "N/A".

(** The ways the network-backed path fails: no usable credential, an error
    thrown by the request, or a response whose text is undefined or empty. *)
Inductive network_path_fails (w : World) : Prop :=
| credential_missing :
    credential (API_KEY w) = None -> network_path_fails w
| request_error (key e : string) :
    credential (API_KEY w) = Some key ->
    remote w key geminiModel (letterPrompt (input w)) = Throw e ->
    network_path_fails w
| response_empty (key : string) (response : option string) :
    credential (API_KEY w) = Some key ->
    remote w key geminiModel (letterPrompt (input w)) = Return response ->
    response = None \/ response = Some EmptyString ->
    network_path_fails w.

(** A blank line: white space only. *)
Fixpoint isBlank (s : string) : bool :=
  match s with
  | EmptyString => true
  | String c s' => isWhiteSpace c && isBlank s'
  end.


(** A line as it is returned: the numbering at its start removed, then
    trimmed. *)
Definition cleanLine (line : string) : string := trim (stripNumbering line).

(** A string of ASCII digits. *)
Fixpoint allDigits (s : string) : bool :=
  match s with
  | EmptyString => true
  | String c s' => isDigit c && allDigits s'
  end.

(** ** The claims C1, C2 and C3 as the specification states them *)

(** The sender block as the specification words it: an empty address or an
    empty phone number contributes no line. *)
Definition senderBlock_omitting (u : UserDetails) : list string :=
  (split_lines (fullName u) ++
   (if truthy (address u) then split_lines (address u) else []) ++
   split_lines (email u) ++
   (if truthy (phone u) then split_lines (phone u) else []))%list.

(** The claim as the specification states it: the letter opens with that
    block. *)
Definition sender_block_as_stated (data : LetterData) (date : string) : Prop :=
  exists rest,
    split_lines (getTemplateLetter data date) =
    (senderBlock_omitting (user data) ++ rest)%list.

(** The claim as the specification states it: no line starts with the label
    when the reason is empty, and the reason line is a line of the letter
    exactly once otherwise. *)
Definition reason_line_as_stated (data : LetterData) (date : string) : Prop :=
  let reason := cancellationReason (subscription data) in
  let lines := split_lines (getTemplateLetter data date) in
  if truthy reason
  then line_count ("Reason for cancellation: " ++ reason) lines = 1
  else forall l, In l lines -> startsWith reasonLabel l = false.

(** The claim as the specification states it: an addendum is part of the
    letter exactly when it is the addendum of the request's tone. *)
Definition tone_addendum_as_stated (data : LetterData) (date : string) : Prop :=
  forall t, t <> FORMAL ->
    (includes (toneAdjustment t) (getTemplateLetter data date) = true <->
     tone data = t).

(** ** The claim C10 as the specification states it

    The words of the claim, written without the functions of the parser:
    white space and digits are sets of code units, and a reason is related
    to its line by what has been taken away from the line. *)

(** White space below 256, unit by unit: TAB, LF, VT, FF, CR, SPACE and
    NBSP. *)
Definition whiteSpaceUnits : list ascii :=
  ["009"; "010"; "011"; "012"; "013"; " "; "160"]%char.

Definition digitUnits : list ascii :=
  ["0"; "1"; "2"; "3"; "4"; "5"; "6"; "7"; "8"; "9"]%char.

Definition unitIn (units : list ascii) (c : ascii) : bool :=
  existsb (Ascii.eqb c) units.

(** A string of the given code units only. *)
Fixpoint madeOf (units : list ascii) (s : string) : bool :=
  match s with
  | EmptyString => true
  | String c s' => unitIn units c && madeOf units s'
  end.


(** A list numbering: one digit or more, and a dot. *)
Definition isNumbering (n : string) : Prop :=
  exists digits,
    digits <> EmptyString /\ madeOf digitUnits digits = true /\
    n = digits ++ ".".

(** The numbering a line leads with: the numbering at its very start, and
    nothing when the line starts with no numbering. *)
Definition leadingNumbering (line n : string) : Prop :=
  (isNumbering n /\ exists rest, line = n ++ rest) \/
  (n = EmptyString /\
   forall m rest, isNumbering m -> line <> m ++ rest).

(** White space at one of the two ends of a string. *)
Definition outerWhiteSpace (s : string) : Prop :=
  exists c rest,
    unitIn whiteSpaceUnits c = true /\
    (s = String c rest \/ s = rest ++ String c EmptyString).

(** [reason] is [line] with its leading list numbering stripped and white
    space trimmed: the line is its leading numbering, white space, the
    reason and white space, and the reason has no white space at its
    ends. *)
Definition strippedAndTrimmed (line reason : string) : Prop :=
  exists numbering before after,
    line = numbering ++ before ++ reason ++ after /\
    leadingNumbering line numbering /\
    madeOf whiteSpaceUnits before = true /\
    madeOf whiteSpaceUnits after = true /\
    ~ outerWhiteSpace reason.

(** ** Requests and worlds for the examples *)

(** The request of the scenario of the specification, for a tone. *)
Definition jane (t : Tone) : LetterData :=
  mkLetterData
    (mkUser "Jane Doe" "jane@x.com" "1 Main St" EmptyString)
    (mkSubscription "Netflix" EmptyString "Premium" "Too expensive" "2024-01-01")
    t.

(** The same request without an address. *)
Definition jane_without_address : LetterData :=
  mkLetterData
    (mkUser "Jane Doe" "jane@x.com" EmptyString EmptyString)
    (mkSubscription "Netflix" EmptyString "Premium" "Too expensive" "2024-01-01")
    FIRM.

(** A request whose address repeats the reason line. *)
Definition jane_quoting_reason (reason : string) : LetterData :=
  mkLetterData
    (mkUser "Jane Doe" "jane@x.com" "Reason for cancellation: Too expensive"
            EmptyString)
    (mkSubscription "Netflix" EmptyString "Premium" reason "2024-01-01")
    FIRM.

(** A formal request whose address is worded like the direct addendum. *)
Definition jane_quoting_addendum : LetterData :=
  mkLetterData
    (mkUser "Jane Doe" "jane@x.com"
       "Please process this request immediately. No further communication is required other than a confirmation of termination."
       EmptyString)
    (mkSubscription "Netflix" EmptyString "Premium" "Too expensive" "2024-01-01")
    FORMAL.



(** Two worlds for the examples: one without a key, one whose model fails. *)
Definition world_without_key : World :=
  mkWorld (jane FIRM) None "1/1/2024" (fun _ _ _ => Return (Some "Dear Netflix")) [].

Definition world_with_failing_model : World :=
  mkWorld (jane FIRM) (Some "secret") "1/1/2024" (fun _ _ _ => Throw "503")
          [Warn "earlier"].

(** A world whose model answers every prompt with the same text, and the
    same world with the key a build without a key leaves behind. *)
Definition world_with_answer (apiKey answer : string) : World :=
  mkWorld (jane FIRM) (Some apiKey) "1/1/2024"
          (fun _ _ _ => Return (Some answer)) [].

(** ** The layout of the letter, line by line *)

(** Line 30 of the source: the paragraph that asks for the cancellation. *)
Definition bodyLine (s : SubscriptionDetails) : string :=
  "I am writing to formally request the cancellation of my " ++
  js_or (subscriptionPlan s) EmptyString ++
  " subscription, effective " ++ effectiveDate s ++ ".".

(** The lines of the letter, top to bottom, read off the template literal
    of lines 18-39: a value of several lines takes several lines. *)
Definition letterLayout (data : LetterData) (date : string) : list string :=
  (split_lines (fullName (user data)) ++
   split_lines (address (user data)) ++
   split_lines (email (user data)) ++
   split_lines (phone (user data)) ++
   [EmptyString] ++
   split_lines ("Date: " ++ date) ++
   [EmptyString] ++
   split_lines ("RE: Cancellation of " ++ serviceName (subscription data) ++
                " Subscription") ++
   split_lines ("Account Number: " ++ shownAccountNumber (subscription data)) ++
   [EmptyString] ++
   split_lines ("To the Customer Service Team at " ++
                serviceName (subscription data) ++ ",") ++
   [EmptyString] ++
   split_lines (bodyLine (subscription data)) ++
   [EmptyString] ++
   reasonLines (cancellationReason (subscription data)) ++
   [EmptyString; haltInstruction] ++
   addendumLines (tone data) ++
   [EmptyString; thanksLine; EmptyString; "Sincerely,"; EmptyString] ++
   split_lines (fullName (user data)))%list.

(** Every value of the request the prompt of lines 53-76 interpolates. *)
Definition promptValues (data : LetterData) : list string :=
  [ fullName (user data); email (user data); phone (user data);
    address (user data); serviceName (subscription data);
    accountNumber (subscription data); subscriptionPlan (subscription data);
    js_or (cancellationReason (subscription data)) "Not specified";
    effectiveDate (subscription data); toneValue (tone data) ].

(** ** Calling the service from the form *)

(** The world in which [data] is the object handed to the callee. *)
Definition withInput (data : LetterData) (w : World) : World :=
  mkWorld data (API_KEY w) (localeDate w) (remote w) (console w).

(** [c(data)]: the call of a function of the service on a fresh object. *)
Definition call {A : Type} (c : JS A) (data : LetterData) : JS A :=
  fun w => c (withInput data w).

(** ** The form: the state of [App] and its handlers *)

Module App.

Local Open Scope js_scope.

(** Lines 7-27: the [useState] cells of the component. *)
Record State : Type := mkState {
  userDetails : UserDetails;
  subDetails : SubscriptionDetails;
  tone : Tone;
  generatedLetter : string;
  isGenerating : bool;
  suggestions : list string;
  error : option string;
  copySuccess : bool
}.

(** The state at mount; [today] is
    [new Date().toISOString().split('T')[0]]. *)
Definition initialState (today : string) : State :=
  mkState
    (mkUser EmptyString EmptyString EmptyString EmptyString)
    (mkSubscription EmptyString EmptyString EmptyString EmptyString today)
    FORMAL EmptyString false [] None false.

Definition setUserDetails (f : UserDetails -> UserDetails) (st : State) : State :=
  mkState (f (userDetails st)) (subDetails st) (tone st) (generatedLetter st)
          (isGenerating st) (suggestions st) (error st) (copySuccess st).

Definition setSubDetails (f : SubscriptionDetails -> SubscriptionDetails)
    (st : State) : State :=
  mkState (userDetails st) (f (subDetails st)) (tone st) (generatedLetter st)
          (isGenerating st) (suggestions st) (error st) (copySuccess st).

Definition setTone (t : Tone) (st : State) : State :=
  mkState (userDetails st) (subDetails st) t (generatedLetter st)
          (isGenerating st) (suggestions st) (error st) (copySuccess st).

Definition setGeneratedLetter (letter : string) (st : State) : State :=
  mkState (userDetails st) (subDetails st) (tone st) letter
          (isGenerating st) (suggestions st) (error st) (copySuccess st).

Definition setIsGenerating (b : bool) (st : State) : State :=
  mkState (userDetails st) (subDetails st) (tone st) (generatedLetter st)
          b (suggestions st) (error st) (copySuccess st).

Definition setSuggestions (sugs : list string) (st : State) : State :=
  mkState (userDetails st) (subDetails st) (tone st) (generatedLetter st)
          (isGenerating st) sugs (error st) (copySuccess st).

Definition setError (e : option string) (st : State) : State :=
  mkState (userDetails st) (subDetails st) (tone st) (generatedLetter st)
          (isGenerating st) (suggestions st) e (copySuccess st).

Definition setCopySuccess (b : bool) (st : State) : State :=
  mkState (userDetails st) (subDetails st) (tone st) (generatedLetter st)
          (isGenerating st) (suggestions st) (error st) b.

(** [{ ...prev, [name]: value }] on the user details.  A name that is none of
    the four properties adds a property that nothing reads: the details are
    as before. *)
Definition assignUser (name value : string) (prev : UserDetails) : UserDetails :=
  if String.eqb name "fullName" then
    mkUser value (email prev) (address prev) (phone prev)
  else if String.eqb name "email" then
    mkUser (fullName prev) value (address prev) (phone prev)
  else if String.eqb name "address" then
    mkUser (fullName prev) (email prev) value (phone prev)
  else if String.eqb name "phone" then
    mkUser (fullName prev) (email prev) (address prev) value
  else prev.

(** [{ ...prev, [name]: value }] on the subscription details. *)
Definition assignSubscription (name value : string)
    (prev : SubscriptionDetails) : SubscriptionDetails :=
  if String.eqb name "serviceName" then
    mkSubscription value (accountNumber prev) (subscriptionPlan prev)
                   (cancellationReason prev) (effectiveDate prev)
  else if String.eqb name "accountNumber" then
    mkSubscription (serviceName prev) value (subscriptionPlan prev)
                   (cancellationReason prev) (effectiveDate prev)
  else if String.eqb name "subscriptionPlan" then
    mkSubscription (serviceName prev) (accountNumber prev) value
                   (cancellationReason prev) (effectiveDate prev)
  else if String.eqb name "cancellationReason" then
    mkSubscription (serviceName prev) (accountNumber prev)
                   (subscriptionPlan prev) value (effectiveDate prev)
  else if String.eqb name "effectiveDate" then
    mkSubscription (serviceName prev) (accountNumber prev)
                   (subscriptionPlan prev) (cancellationReason prev) value
  else prev.

(** Lines 44-46; [name] and [value] are those of [e.target]. *)
Definition handleUserChange (name value : string) (st : State) : State :=
  setUserDetails (assignUser name value) st.

(** Lines 48-50. *)
Definition handleSubChange (name value : string) (st : State) : State :=
  setSubDetails (assignSubscription name value) st.

(** The [onClick] of a suggestion button:
    [setSubDetails(prev => ({ ...prev, cancellationReason: sug }))]. *)
Definition pickSuggestion (sug : string) (st : State) : State :=
  setSubDetails
    (fun prev =>
       mkSubscription (serviceName prev) (accountNumber prev)
                      (subscriptionPlan prev) sug (effectiveDate prev))
    st.

(** Lines 52-57. *)
Definition fetchSuggestions (st : State) : JS State :=
  if (2 <? String.length (serviceName (subDetails st)))%nat then
    sugs <- Effects.suggestCancellationReason (serviceName (subDetails st)) ;;
    ret (setSuggestions sugs st)
  else ret st.

(** Lines 60-62: what the timer of the effect runs when it fires. *)
Definition suggestionTimer (st : State) : JS State :=
  if truthy (serviceName (subDetails st)) then fetchSuggestions st else ret st.

(** The request the form hands to the generator (lines 71-75). *)
Definition request (st : State) : LetterData :=
  mkLetterData (userDetails st) (subDetails st) (tone st).

(** Lines 66-89 for a generator [generate]; scrolling the preview into view
    changes no state and is left out. *)
Definition handleSubmitWith (generate : JS string) (st : State) : JS State :=
  let st := setError None (setIsGenerating true st) in
  st <- try_catch
          (letter <- call generate (request st) ;;
           ret (setGeneratedLetter letter st))
          (fun _ =>
             ret (setError (Some "Unable to process request. Please try again.") st)) ;;
  ret (setIsGenerating false st).

(** Lines 66-89. *)
Definition handleSubmit (st : State) : JS State :=
  handleSubmitWith Effects.generateCancellationLetter st.

(** What the browser makes of [navigator.clipboard.writeText(text)]:
    [navigator.clipboard] is undefined outside a secure context, and the
    call throws a [TypeError]; where it is defined, the call returns a
    promise that the browser rejects, the clipboard staying as it was, or
    fulfils once the text is on the clipboard. *)
Inductive WriteText : Type :=
| ClipboardUndefined
| WriteRejected
| WriteFulfilled.

(** Lines 91-96, up to the timer that resets [copySuccess]: what the handler
    returns or throws, and the text on the clipboard once the promise of
    [writeText] is settled.  The promise is neither awaited nor caught: the
    handler goes on to [setCopySuccess(true)] whatever becomes of it. *)
Definition copyToClipboard (st : State) (writeText : WriteText)
    (clipboard : option string) : Result State * option string :=
  if negb (truthy (generatedLetter st)) then (Return st, clipboard)
  else
    match writeText with
    | ClipboardUndefined => (Throw "TypeError", clipboard)
    | WriteRejected => (Return (setCopySuccess true st), clipboard)
    | WriteFulfilled =>
        (Return (setCopySuccess true st), Some (generatedLetter st))
    end.

(** What the user and the timers do to the form. *)
Inductive Event : Type :=
| UserChange (name value : string)
| SubChange (name value : string)
| PickSuggestion (index : nat)
| SetTone (t : Tone)
| EditLetter (value : string)
| SuggestionTimer
| Submit
| Copy (writeText : WriteText)
| CopyTimer.

(** The state a handler that runs in the world leaves; a handler that throws
    leaves the state as it was. *)
Definition settle (c : JS State) (st : State) (w : World) : State :=
  match fst (c w) with
  | Return st' => st'
  | Throw _ => st
  end.

(** One event, handled to its end in the world [w] of that moment. *)
Definition dispatch (ev : Event) (w : World) (st : State) : State :=
  match ev with
  | UserChange name value => handleUserChange name value st
  | SubChange name value => handleSubChange name value st
  | PickSuggestion index =>
      match nth_error (suggestions st) index with
      | Some sug => pickSuggestion sug st
      | None => st
      end
  | SetTone t => setTone t st
  | EditLetter value => setGeneratedLetter value st
  | SuggestionTimer => settle (suggestionTimer st) st w
  | Submit => settle (handleSubmit st) st w
  | Copy writeText =>
      match fst (copyToClipboard st writeText None) with
      | Return st' => st'
      | Throw _ => st
      end
  | CopyTimer => setCopySuccess false st
  end.

(** A sequence of events, each in the world of its moment. *)
Fixpoint run (events : list (Event * World)) (st : State) : State :=
  match events with
  | [] => st
  | (ev, w) :: events' => run events' (dispatch ev w st)
  end.

End App.

(** ** Worlds for the examples of the form *)

(** A world with a usable key whose model answers the prompt for reasons
    about Netflix with a numbered list and fails on every other prompt. *)
Definition world_suggesting : World :=
  mkWorld (jane FIRM) (Some "secret") "1/1/2024"
    (fun _ _ prompt =>
       if String.eqb prompt (reasonsPrompt "Netflix")
       then Return (Some ("1. Too pricey" ++ LF ++ "2. Rarely used"))
       else Throw "503")
    [].

(** A world with a usable key whose model answers the prompt for the letter
    of the scenario and fails on every other prompt. *)
Definition world_answering_jane : World :=
  mkWorld (jane FIRM) (Some "secret") "1/1/2024"
    (fun _ _ prompt =>
       if String.eqb prompt (letterPrompt (jane FIRM))
       then Return (Some "Dear Netflix")
       else Throw "503")
    [Warn "earlier"].

(** The form filled in with the scenario of the specification. *)
Definition jane_form : App.State :=
  App.mkState
    (mkUser "Jane Doe" "jane@x.com" "1 Main St" EmptyString)
    (mkSubscription "Netflix" EmptyString "Premium" EmptyString "2024-01-01")
    FORMAL EmptyString false [] None false.

(** * Part II: lemmas and theorems *)

(** ** Facts about the string primitives *)

Lemma append_assoc (a b c : string) : (a ++ b) ++ c = a ++ (b ++ c).
Proof.
  induction a as [|x a IH]; simpl; [reflexivity | now rewrite IH].
Qed.

Lemma append_nil_r (a : string) : a ++ EmptyString = a.
Proof.
  induction a as [|x a IH]; simpl; [reflexivity | now rewrite IH].
Qed.

Lemma js_or_empty (a : string) : js_or a EmptyString = a.
Proof. now destruct a. Qed.

Lemma js_or_ind (P : string -> Prop) (a b : string) :
  P a -> P b -> P (js_or a b).
Proof. unfold js_or; now destruct (truthy a). Qed.

Lemma truthy_false (s : string) : truthy s = false <-> s = EmptyString.
Proof. destruct s; simpl; split; congruence. Qed.

Lemma startsWith_refl_app (n b : string) : startsWith n (n ++ b) = true.
Proof.
  induction n as [|x n IH]; simpl; [reflexivity|].
  now rewrite Ascii.eqb_refl.
Qed.

Lemma includes_startsWith (n s : string) :
  startsWith n s = true -> includes n s = true.
Proof. destruct s; simpl; intros ->; reflexivity. Qed.

(** [includes] finds every occurrence, wherever it sits. *)
Lemma includes_intro (n a b : string) : includes n (a ++ n ++ b) = true.
Proof.
  induction a as [|x a IH]; simpl.
  - apply includes_startsWith, startsWith_refl_app.
  - rewrite IH. apply orb_true_r.
Qed.

Lemma startsWith_split (n s : string) :
  startsWith n s = true -> exists b, s = n ++ b.
Proof.
  revert s; induction n as [|x n IH]; intros s H; simpl in *.
  - now exists s.
  - destruct s as [|y s]; [discriminate|].
    apply andb_true_iff in H as [Hxy Hn].
    apply Ascii.eqb_eq in Hxy; subst y.
    destruct (IH _ Hn) as [b ->]. now exists b.
Qed.

Lemma includes_split (n s : string) :
  includes n s = true -> exists a b, s = a ++ n ++ b.
Proof.
  induction s as [|x s IH]; simpl; intros H.
  - rewrite orb_false_r in H.
    destruct (startsWith_split _ _ H) as [b Hb].
    exists EmptyString, b. exact Hb.
  - apply orb_true_iff in H as [H|H].
    + destruct (startsWith_split _ _ H) as [b Hb].
      exists EmptyString, b. exact Hb.
    + destruct (IH H) as (a & b & ->).
      now exists (String x a), b.
Qed.

Lemma includes_occurrences (n s : string) :
  includes n s = false <-> occurrences n s = 0.
Proof.
  induction s as [|x s IH]; simpl.
  - destruct (startsWith n EmptyString); simpl; split; congruence.
  - destruct (startsWith n (String x s)); simpl.
    + split; congruence.
    + exact IH.
Qed.

(** Splitting at a line feed splits the list of lines. *)
Lemma split_from_LF (cur a b : string) :
  split_from cur (a ++ LF ++ b) = (split_from cur a ++ split_lines b)%list.
Proof.
  revert cur; induction a as [|x a IH]; intros cur; simpl.
  - reflexivity.
  - destruct (Ascii.eqb x "010"); simpl; now rewrite IH.
Qed.

Lemma split_lines_LF (a b : string) :
  split_lines (a ++ LF ++ b) = (split_lines a ++ split_lines b)%list.
Proof. apply split_from_LF. Qed.

Lemma split_from_one_line (cur s : string) :
  includes LF s = false -> split_from cur s = [cur ++ s].
Proof.
  revert cur; induction s as [|x s IH]; intros cur H.
  - simpl. now rewrite append_nil_r.
  - cbn [includes startsWith] in H. cbn [split_from].
    rewrite (Ascii.eqb_sym "010" x) in H.
    destruct (Ascii.eqb x "010"); [discriminate|].
    rewrite IH by exact H. now rewrite append_assoc.
Qed.

Lemma split_lines_one_line (s : string) :
  includes LF s = false -> split_lines s = [s].
Proof. apply split_from_one_line. Qed.

Lemma startsWith_app (n x y : string) :
  startsWith n (x ++ y) =
  startsWith n x || (startsWith x n && startsWith (skip (String.length x) n) y).
Proof.
  revert n; induction x as [|c x IH]; intros n; simpl.
  - destruct n; simpl; [reflexivity|].
    now destruct y.
  - destruct n as [|a n]; simpl; [reflexivity|].
    rewrite IH, (Ascii.eqb_sym c a).
    destruct (Ascii.eqb a c); simpl; reflexivity.
Qed.

Lemma includes_app_l (n a b : string) :
  includes n a = true -> includes n (a ++ b) = true.
Proof.
  intros H. destruct (includes_split _ _ H) as (x & y & ->).
  rewrite !append_assoc. apply includes_intro.
Qed.

Lemma includes_app_r (n a b : string) :
  includes n b = true -> includes n (a ++ b) = true.
Proof.
  intros H. induction a as [|c a IH]; [exact H|].
  cbn [append includes]. rewrite IH. apply orb_true_r.
Qed.

Lemma endsWith_app_r (p a b : string) :
  endsWith p b = true -> endsWith p (a ++ b) = true.
Proof.
  intros H. induction a as [|c a IH]; [exact H|].
  cbn [append endsWith]. rewrite IH. apply orb_true_r.
Qed.


Lemma includes_trans (m n s : string) :
  includes m n = true -> includes n s = true -> includes m s = true.
Proof.
  intros Hmn Hns.
  destruct (includes_split _ _ Hmn) as (a & b & ->).
  destruct (includes_split _ _ Hns) as (a' & b' & ->).
  replace (a' ++ (a ++ m ++ b) ++ b') with ((a' ++ a) ++ m ++ (b ++ b'))
    by (rewrite !append_assoc; reflexivity).
  apply includes_intro.
Qed.

(** Every line of a text is part of the text. *)
Lemma split_from_included (cur s l : string) :
  In l (split_from cur s) -> includes l (cur ++ s) = true.
Proof.
  revert cur; induction s as [|c s IH]; intros cur H; cbn [split_from] in H.
  - destruct H as [<-|[]]. apply includes_app_l.
    apply includes_startsWith. rewrite <- (append_nil_r cur) at 2.
    apply startsWith_refl_app.
  - destruct (Ascii.eqb c "010").
    + destruct H as [<-|H].
      * apply includes_startsWith, startsWith_refl_app.
      * apply includes_app_r.
        apply (includes_app_r l (String c EmptyString) s).
        apply (IH EmptyString H).
    + specialize (IH _ H). now rewrite append_assoc in IH.
Qed.

Lemma lines_without (n s : string) :
  includes n s = false ->
  forall l, In l (split_lines s) -> includes n l = false.
Proof.
  intros H l Hl.
  destruct (includes n l) eqn:E; [|reflexivity].
  rewrite <- H. symmetry.
  apply includes_trans with l; [exact E|].
  now apply (split_from_included EmptyString).
Qed.

Lemma includes_LF_app (a b : string) :
  includes LF (a ++ b) = includes LF a || includes LF b.
Proof.
  induction a as [|c a IH]; cbn [append includes].
  - destruct b; reflexivity.
  - rewrite IH. cbn [startsWith].
    destruct (Ascii.eqb "010" c); cbn [andb orb]; [reflexivity|].
    now destruct (a ++ b), a.
Qed.

(** ** Counting occurrences across the pieces of a template *)

Lemma occurrences_empty (n : string) :
  truthy n = true -> occurrences n EmptyString = 0.
Proof. destruct n; simpl; [discriminate | reflexivity]. Qed.

Lemma startsWith_partial (x n : string) :
  startsWith x n = true ->
  startsWith n x = true \/ In (skip (String.length x) n) (tails n).
Proof.
  revert n; induction x as [|c x IH]; intros n H; simpl in *.
  - destruct n; simpl; [now left | right; now left].
  - destruct n as [|a n]; [discriminate|].
    apply andb_true_iff in H as [Hca Hx].
    destruct (IH _ Hx) as [Hn|Hn].
    + left. simpl. rewrite (Ascii.eqb_sym a c), Hca. exact Hn.
    + right. simpl. right. exact Hn.
Qed.

Lemma startsWith_after_literal (n x y : string) :
  tail_clear n x = true ->
  forall t, In t (tails x) -> startsWith n (t ++ y) = startsWith n t.
Proof.
  unfold tail_clear. intros H t Ht.
  rewrite forallb_forall in H. specialize (H t Ht).
  rewrite startsWith_app.
  destruct (startsWith n t); [reflexivity|].
  simpl in *. rewrite orb_false_r in H.
  apply negb_true_iff in H. now rewrite H.
Qed.

Lemma occurrences_app_tails (n x y : string) :
  truthy n = true ->
  (forall t, In t (tails x) -> startsWith n (t ++ y) = startsWith n t) ->
  occurrences n (x ++ y) = occurrences n x + occurrences n y.
Proof.
  intros Hn. induction x as [|c x IH]; intros H.
  - cbn [append]. now rewrite occurrences_empty.
  - change (String c x ++ y) with (String c (x ++ y)).
    cbn [occurrences].
    change (String c (x ++ y)) with (String c x ++ y).
    rewrite (H (String c x)) by (simpl; now left).
    rewrite IH by (intros t Ht; apply H; simpl; now right).
    lia.
Qed.

Lemma occurrences_app_literal (n x y : string) :
  truthy n = true -> tail_clear n x = true ->
  occurrences n (x ++ y) = occurrences n x + occurrences n y.
Proof.
  intros Hn Hx. apply occurrences_app_tails; [exact Hn|].
  now apply startsWith_after_literal.
Qed.

Lemma startsWith_before_literal (n l z : string) :
  head_clear n l = true ->
  forall t, t <> EmptyString -> startsWith n (t ++ l ++ z) = startsWith n t.
Proof.
  unfold head_clear. intros H t Ht.
  rewrite forallb_forall in H.
  rewrite startsWith_app.
  destruct (startsWith n t) eqn:Hnt; [reflexivity|]. simpl.
  destruct (startsWith t n) eqn:Htn; [|reflexivity]. simpl.
  destruct t as [|c t]; [congruence|].
  destruct n as [|a n]; [discriminate|].
  simpl in Htn. apply andb_true_iff in Htn as [Hca Htn].
  simpl in Hnt. rewrite (Ascii.eqb_sym a c), Hca in Hnt. simpl in Hnt.
  destruct (startsWith_partial _ _ Htn) as [Hc|Hin]; [congruence|].
  simpl. specialize (H _ Hin). apply negb_true_iff in H.
  rewrite startsWith_app.
  apply orb_false_iff in H as [H1 H2]. now rewrite H1, H2.
Qed.

Lemma tails_not_empty (x t : string) : In t (tails x) -> t <> EmptyString.
Proof.
  induction x as [|c x IH]; simpl; [tauto|].
  intros [<-|H]; [discriminate | now apply IH].
Qed.

Lemma occurrences_app_hole (n x l z : string) :
  truthy n = true -> head_clear n l = true ->
  occurrences n (x ++ l ++ z) = occurrences n x + occurrences n (l ++ z).
Proof.
  intros Hn Hl. apply occurrences_app_tails; [exact Hn|].
  intros t Ht. apply startsWith_before_literal; [exact Hl|].
  now apply tails_not_empty with x.
Qed.

(** The occurrences of [n] in a rendered template whose borders are clear
    are those inside its literals and those inside its holes: none straddles
    a border. *)
Lemma occurrences_render (n : string) (ps : list piece) :
  truthy n = true -> borders_clear n ps = true ->
  occurrences n (render ps) =
  literal_occurrences n ps + list_sum (map (occurrences n) (holes ps)).
Proof.
  intros Hn. unfold list_sum.
  induction ps as [|p ps IH]; intros H.
  - cbn [render holes literal_occurrences map fold_right].
    now rewrite occurrences_empty.
  - destruct p as [s|s]; cbn [borders_clear] in H;
      apply andb_true_iff in H as [H1 H2]; specialize (IH H2);
      cbn [render text holes literal_occurrences map fold_right].
    + rewrite occurrences_app_literal by assumption. lia.
    + destruct ps as [|[l|l] ps]; [| |discriminate].
      * cbn [render]. rewrite append_nil_r.
        cbn [holes literal_occurrences map fold_right]. lia.
      * cbn [render text] in *.
        rewrite occurrences_app_hole by assumption. lia.
Qed.

(** ** Occurrences of a text in the letter *)

Lemma getTemplateLetter_pieces (data : LetterData) (date : string) :
  getTemplateLetter data date = render (letterPieces data date).
Proof.
  destruct data as [[fn em ad ph] [sv ac pl re ed] t].
  unfold getTemplateLetter, letterPieces, reasonSlot.
  cbn [user subscription tone fullName email address phone serviceName
       accountNumber subscriptionPlan cancellationReason effectiveDate].
  rewrite !js_or_empty.
  destruct (truthy re); destruct t; cbn; rewrite ?append_assoc, ?append_nil_r;
    reflexivity.
Qed.

Lemma borders_clear_blank (n : string) (ps : list piece) :
  borders_clear n (map blank ps) = borders_clear n ps.
Proof.
  induction ps as [|[s|s] ps IH]; cbn [map blank borders_clear].
  - reflexivity.
  - now rewrite IH.
  - rewrite IH. now destruct ps as [|[l|l] ps].
Qed.

Lemma literal_occurrences_blank (n : string) (ps : list piece) :
  literal_occurrences n (map blank ps) = literal_occurrences n ps.
Proof.
  induction ps as [|[s|s] ps IH]; cbn [map blank literal_occurrences];
    now rewrite ?IH.
Qed.

Lemma letterPieces_skeleton (data : LetterData) (date : string) :
  map blank (letterPieces data date) =
  skeleton (tone data) (truthy (cancellationReason (subscription data))).
Proof.
  destruct data as [[fn em ad ph] [sv ac pl re ed] t].
  unfold skeleton, letterPieces.
  cbn [user subscription tone cancellationReason].
  now destruct (truthy re).
Qed.

Lemma template_clear_borders (n : string) (t : Tone) (b : bool) :
  template_clear n = true -> borders_clear n (skeleton t b) = true.
Proof.
  unfold template_clear. intros H.
  apply andb_true_iff in H as [_ H].
  rewrite forallb_forall in H.
  assert (Ht : In t [FORMAL; FIRM; FRIENDLY; DIRECT])
    by (destruct t; simpl; tauto).
  specialize (H t Ht). apply andb_true_iff in H as [H1 H2].
  now destruct b.
Qed.

(** The occurrences of [n] in the letter: those the template itself writes
    and those inside the interpolated values. *)
Lemma letter_occurrences (n : string) (data : LetterData) (date : string) :
  template_clear n = true ->
  occurrences n (getTemplateLetter data date) =
  literal_occurrences n
    (skeleton (tone data) (truthy (cancellationReason (subscription data)))) +
  list_sum (map (occurrences n) (holes (letterPieces data date))).
Proof.
  intros H.
  rewrite getTemplateLetter_pieces, occurrences_render.
  - now rewrite <- (letterPieces_skeleton data date), literal_occurrences_blank.
  - unfold template_clear in H. now apply andb_true_iff in H as [H _].
  - rewrite <- borders_clear_blank, letterPieces_skeleton.
    now apply template_clear_borders.
Qed.

Lemma occurrences_absent (n : string) (vs : list string) :
  Forall (fun v => includes n v = false) vs ->
  list_sum (map (occurrences n) vs) = 0.
Proof.
  unfold list_sum.
  induction 1 as [|v vs Hv _ IH]; cbn [map fold_right]; [reflexivity|].
  apply includes_occurrences in Hv. lia.
Qed.

(** When no interpolated value contains [n], no hole of the letter does. *)
Lemma holes_absent (n : string) (data : LetterData) (date : string) :
  includes n "N/A" = false ->
  Forall (fun v => includes n v = false) (interpolated data date) ->
  Forall (fun v => includes n v = false) (holes (letterPieces data date)).
Proof.
  destruct data as [[fn em ad ph] [sv ac pl re ed] t].
  unfold interpolated, letterPieces.
  cbn [user subscription tone fullName email address phone serviceName
       accountNumber subscriptionPlan cancellationReason effectiveDate].
  intros HNA H.
  repeat match goal with
         | H : Forall _ (_ :: _) |- _ => inversion H; subst; clear H
         | H : Forall _ [] |- _ => clear H
         end.
  assert (Hac : includes n (js_or ac "N/A") = false)
    by (apply js_or_ind; assumption).
  destruct (truthy re); cbn [app beforeReasonPieces holes user subscription
    fullName email address phone serviceName accountNumber subscriptionPlan
    effectiveDate];
    repeat (constructor; try assumption).
Qed.

(** ** The sender block (C1) *)

Lemma split_lines_LF_head (b : string) :
  split_lines (LF ++ b) = EmptyString :: split_lines b.
Proof. reflexivity. Qed.

(** C1, as stated, fails: with an empty address the second line of the
    letter is an empty line, not the email line. *)
Lemma sender_block_empty_address_counterexample :
  ~ sender_block_as_stated jane_without_address "1/1/2024".
Proof.
  intros [rest H]. vm_compute in H. discriminate H.
Qed.

(** C1, amended: the letter opens with the lines of the full name, of the
    address, of the email and of the phone number, in this order, followed by
    a blank line and the date line; an empty address or phone number is
    rendered as one empty line. *)
Theorem sender_block_lines (data : LetterData) (date : string) :
  exists rest,
    split_lines (getTemplateLetter data date) =
    (split_lines (fullName (user data)) ++
     (if truthy (address (user data))
      then split_lines (address (user data)) else [EmptyString]) ++
     split_lines (email (user data)) ++
     (if truthy (phone (user data))
      then split_lines (phone (user data)) else [EmptyString]) ++
     [EmptyString] ++
     split_lines ("Date: " ++ date) ++ rest)%list.
Proof.
  destruct data as [[fn em ad ph] [sv ac pl re ed] t].
  unfold getTemplateLetter.
  cbn [user subscription tone fullName email address phone].
  rewrite !js_or_empty.
  rewrite 4!split_lines_LF, split_lines_LF_head.
  rewrite <- (append_assoc "Date: " date), split_lines_LF.
  eexists.
  replace (if truthy ad then split_lines ad else [EmptyString])
    with (split_lines ad)
    by (destruct ad; reflexivity).
  replace (if truthy ph then split_lines ph else [EmptyString])
    with (split_lines ph)
    by (destruct ph; reflexivity).
  reflexivity.
Qed.

(** ** The account number line (C4) *)

Lemma getTemplateLetter_account (data : LetterData) (date : string) :
  exists a b,
    getTemplateLetter data date =
    a ++ LF ++ ("Account Number: " ++ shownAccountNumber (subscription data))
      ++ LF ++ b.
Proof.
  exists (fullName (user data) ++ LF ++
          js_or (address (user data)) EmptyString ++ LF ++
          email (user data) ++ LF ++
          js_or (phone (user data)) EmptyString ++ LF ++
          LF ++ "Date: " ++ date ++ LF ++ LF ++
          "RE: Cancellation of " ++ serviceName (subscription data) ++
          " Subscription").
  eexists.
  unfold getTemplateLetter, shownAccountNumber.
  rewrite !append_assoc. reflexivity.
Qed.

(** C4: the letter has the line [Account Number: N/A] when the account number
    is empty, and otherwise contains [Account Number: ] followed by the
    account number as given; either text starts a line of the letter and runs
    to its end. *)
Theorem account_number_line (data : LetterData) (date : string) :
  let letter := getTemplateLetter data date in
  let number := accountNumber (subscription data) in
  (if truthy number
   then includes ("Account Number: " ++ number) letter = true
   else In "Account Number: N/A" (split_lines letter)) /\
  exists before after,
    split_lines letter =
    (before ++
     split_lines ("Account Number: " ++ (if truthy number then number else "N/A")) ++
     after)%list.
Proof.
  intros letter number. subst letter number.
  destruct (getTemplateLetter_account data date) as (a & b & E).
  rewrite E. unfold shownAccountNumber, js_or.
  split.
  - destruct (truthy (accountNumber (subscription data))).
    + rewrite <- (append_assoc a LF). apply includes_intro.
    + rewrite 2!split_lines_LF.
      apply in_or_app. right. apply in_or_app. left. now left.
  - exists (split_lines a), (split_lines b).
    now rewrite 2!split_lines_LF.
Qed.

(** ** The reason line (C2) *)

Lemma getTemplateLetter_around_reason (data : LetterData) (date : string) :
  getTemplateLetter data date =
  beforeReason data date ++ LF ++ LF ++
  reasonSlot (cancellationReason (subscription data)) ++
  afterReason (tone data) ++ fullName (user data).
Proof.
  unfold getTemplateLetter, beforeReason, afterReason.
  rewrite !append_assoc. reflexivity.
Qed.

Lemma afterReason_lines (t : Tone) (name : string) :
  split_lines (afterReason t ++ name) =
  ([EmptyString; haltInstruction] ++ addendumLines t ++
   [EmptyString; thanksLine; EmptyString; "Sincerely,"; EmptyString] ++
   split_lines name)%list.
Proof.
  assert (E : afterReason t = dropLast (afterReason t) ++ LF)
    by (destruct t; reflexivity).
  rewrite E, append_assoc, split_lines_LF.
  destruct t; reflexivity.
Qed.

(** The lines of the letter: those up to the reason slot, the lines of the
    reason, and those after it. *)
Lemma getTemplateLetter_lines (data : LetterData) (date : string) :
  split_lines (getTemplateLetter data date) =
  ((split_lines (beforeReason data date) ++ [EmptyString]) ++
   reasonLines (cancellationReason (subscription data)) ++
   split_lines (afterReason (tone data) ++ fullName (user data)))%list.
Proof.
  rewrite getTemplateLetter_around_reason.
  rewrite split_lines_LF, split_lines_LF_head.
  unfold reasonSlot, reasonLines.
  destruct (truthy (cancellationReason (subscription data))).
  - replace (("Reason for cancellation: " ++
              cancellationReason (subscription data) ++ LF) ++
             afterReason (tone data) ++ fullName (user data))
      with (("Reason for cancellation: " ++
             cancellationReason (subscription data)) ++ LF ++
            afterReason (tone data) ++ fullName (user data))
      by (rewrite !append_assoc; reflexivity).
    rewrite split_lines_LF. now rewrite <- app_assoc.
  - cbn [append app]. now rewrite <- app_assoc.
Qed.

Lemma reasonLabel_clear : template_clear reasonLabel = true.
Proof. vm_compute. reflexivity. Qed.

(** C2, as stated, fails in both of its halves: when the address repeats the
    reason line that line is a line of the letter twice, and it is a line of
    the letter although the reason is empty. *)
Lemma reason_line_counterexample :
  ~ reason_line_as_stated (jane_quoting_reason "Too expensive") "1/1/2024" /\
  ~ reason_line_as_stated (jane_quoting_reason EmptyString) "1/1/2024".
Proof.
  split.
  - intros H. vm_compute in H. discriminate H.
  - intros H.
    specialize (H "Reason for cancellation: Too expensive").
    assert (C : startsWith reasonLabel "Reason for cancellation: Too expensive" = false).
    { apply H. vm_compute. tauto. }
    vm_compute in C. discriminate C.
Qed.

Lemma holes_letterPieces (data : LetterData) (date : string) :
  holes (letterPieces data date) =
  ([ fullName (user data); address (user data); email (user data);
     phone (user data); date; serviceName (subscription data);
     js_or (accountNumber (subscription data)) "N/A";
     serviceName (subscription data); subscriptionPlan (subscription data);
     effectiveDate (subscription data) ] ++
   (if truthy (cancellationReason (subscription data))
    then [cancellationReason (subscription data)] else []) ++
   [ fullName (user data) ])%list.
Proof.
  unfold letterPieces.
  now destruct (truthy (cancellationReason (subscription data))).
Qed.

(** The occurrences of the label in the letter, when no value other than the
    reason contains it: those in the reason, and the one the template writes
    when a reason is given. *)
Lemma reasonLabel_occurrences (data : LetterData) (date : string) :
  Forall (fun v => includes reasonLabel v = false) (otherValues data date) ->
  occurrences reasonLabel (getTemplateLetter data date) =
  (if truthy (cancellationReason (subscription data)) then 1 else 0) +
  occurrences reasonLabel (cancellationReason (subscription data)).
Proof.
  intros H.
  rewrite letter_occurrences by apply reasonLabel_clear.
  rewrite holes_letterPieces.
  destruct data as [[fn em ad ph] [sv ac pl re ed] t].
  unfold otherValues in H.
  cbn [user subscription tone fullName email address phone serviceName
       accountNumber subscriptionPlan cancellationReason effectiveDate] in *.
  repeat match goal with
         | H : Forall _ (_ :: _) |- _ => inversion H; subst; clear H
         | H : Forall _ [] |- _ => clear H
         end.
  assert (Hac : includes reasonLabel (js_or ac "N/A") = false)
    by (apply js_or_ind; [assumption | reflexivity]).
  repeat match goal with
         | H : includes reasonLabel _ = false |- _ =>
             apply includes_occurrences in H
         end.
  assert (L1 : forall t', literal_occurrences reasonLabel (skeleton t' true) = 1)
    by (intros []; vm_compute; reflexivity).
  assert (L0 : forall t', literal_occurrences reasonLabel (skeleton t' false) = 0)
    by (intros []; vm_compute; reflexivity).
  destruct (truthy re) eqn:Hre; rewrite ?L1, ?L0;
    unfold list_sum; cbn [app map fold_right].
  - lia.
  - apply truthy_false in Hre. subst re.
    rewrite (occurrences_empty reasonLabel) by reflexivity. lia.
Qed.

Lemma line_count_app (x : string) (l1 l2 : list string) :
  line_count x (l1 ++ l2) = line_count x l1 + line_count x l2.
Proof. unfold line_count. now rewrite filter_app, length_app. Qed.

Lemma line_count_without (n x : string) (ls : list string) :
  includes n x = true ->
  (forall l, In l ls -> includes n l = false) ->
  line_count x ls = 0.
Proof.
  intros Hx H. unfold line_count.
  induction ls as [|l ls IH]; [reflexivity|].
  cbn [filter].
  destruct (String.eqb_spec x l) as [->|_].
  - rewrite (H l) in Hx by now left. discriminate.
  - apply IH. intros l' Hl'. apply H. now right.
Qed.

(** C2, amended: take a request and a date in which no value other than the
    cancellation reason contains the text [Reason for cancellation:].  Then
    the claim holds as stated for every reason of one line that does not
    contain that text either.  For every reason: the slot stands between a
    blank line and the blank line before the instruction to stop the
    payments; with an empty reason nothing stands between these two blank
    lines and the letter contains the label nowhere; with a non-empty reason
    the lines of [Reason for cancellation: ] followed by the reason stand
    between them, and the label occurs once more than it occurs in the reason
    itself.  So the line is left out as a whole, and no empty line is written
    in its place. *)
Theorem reason_line_rendering (data : LetterData) (date : string) :
  Forall (fun v => includes reasonLabel v = false) (otherValues data date) ->
  (forall reason,
     includes reasonLabel reason = false -> includes LF reason = false ->
     reason_line_as_stated (withReason reason data) date) /\
  exists before after : list string,
    (split_lines (getTemplateLetter (withReason EmptyString data) date) =
       (before ++ [EmptyString; EmptyString; haltInstruction] ++ after)%list /\
     includes reasonLabel
       (getTemplateLetter (withReason EmptyString data) date) = false) /\
    forall reason, truthy reason = true ->
      split_lines (getTemplateLetter (withReason reason data) date) =
        (before ++ [EmptyString] ++
         split_lines ("Reason for cancellation: " ++ reason) ++
         [EmptyString; haltInstruction] ++ after)%list /\
      occurrences reasonLabel (getTemplateLetter (withReason reason data) date) =
        1 + occurrences reasonLabel reason.
Proof.
  intros H.
  assert (Ho : forall r, otherValues (withReason r data) date =
                         otherValues data date) by reflexivity.
  assert (Hb : forall r, beforeReason (withReason r data) date =
                         beforeReason data date) by reflexivity.
  assert (H0 : includes reasonLabel
                 (getTemplateLetter (withReason EmptyString data) date) = false).
  { apply includes_occurrences.
    rewrite reasonLabel_occurrences by (rewrite Ho; exact H).
    reflexivity. }
  assert (L0 : split_lines (getTemplateLetter (withReason EmptyString data) date) =
               ((split_lines (beforeReason data date) ++ [EmptyString]) ++
                split_lines (afterReason (tone data) ++ fullName (user data)))%list).
  { rewrite getTemplateLetter_lines, Hb. reflexivity. }
  assert (L1 : forall reason, truthy reason = true ->
               split_lines (getTemplateLetter (withReason reason data) date) =
               ((split_lines (beforeReason data date) ++ [EmptyString]) ++
                split_lines ("Reason for cancellation: " ++ reason) ++
                split_lines (afterReason (tone data) ++ fullName (user data)))%list).
  { intros reason Hr. rewrite getTemplateLetter_lines, Hb.
    cbn [withReason subscription cancellationReason tone user].
    unfold reasonLines. now rewrite Hr. }
  split.
  - intros reason Hclean Hline. unfold reason_line_as_stated.
    cbn [withReason subscription cancellationReason].
    destruct (truthy reason) eqn:Hr.
    + change (mkLetterData (user data)
                (mkSubscription (serviceName (subscription data))
                   (accountNumber (subscription data))
                   (subscriptionPlan (subscription data)) reason
                   (effectiveDate (subscription data))) (tone data))
        with (withReason reason data).
      rewrite (L1 reason Hr).
      rewrite (split_lines_one_line ("Reason for cancellation: " ++ reason))
        by (rewrite includes_LF_app, Hline; reflexivity).
      assert (Hx : includes reasonLabel ("Reason for cancellation: " ++ reason) = true)
        by (apply includes_startsWith;
            apply (startsWith_refl_app reasonLabel (String " " reason))).
      pose proof (lines_without _ _ H0) as Hl. rewrite L0 in Hl.
      assert (Hb0 : line_count ("Reason for cancellation: " ++ reason)
                      (split_lines (beforeReason data date) ++ [EmptyString]) = 0)
        by (apply (line_count_without reasonLabel); [exact Hx|];
            intros l Hin; apply Hl, in_or_app; now left).
      assert (Ha0 : line_count ("Reason for cancellation: " ++ reason)
                      (split_lines (afterReason (tone data) ++
                                    fullName (user data))) = 0)
        by (apply (line_count_without reasonLabel); [exact Hx|];
            intros l Hin; apply Hl, in_or_app; now right).
      rewrite line_count_app, Hb0.
      rewrite (line_count_app _ [_]), Ha0.
      unfold line_count. cbn [filter]. rewrite String.eqb_refl. reflexivity.
    + apply truthy_false in Hr. subst reason.
      intros l Hl.
      destruct (startsWith reasonLabel l) eqn:E; [|reflexivity].
      apply includes_startsWith in E.
      rewrite (lines_without _ _ H0 l Hl) in E. discriminate.
  - exists (split_lines (beforeReason data date)),
           (addendumLines (tone data) ++
            [EmptyString; thanksLine; EmptyString; "Sincerely,"; EmptyString] ++
            split_lines (fullName (user data)))%list.
    split; [split; [|exact H0]|].
    + rewrite L0, afterReason_lines, <- !app_assoc. reflexivity.
    + intros reason Hr. split.
      * rewrite (L1 reason Hr), afterReason_lines, <- !app_assoc. reflexivity.
      * rewrite reasonLabel_occurrences by (rewrite Ho; exact H).
        cbn [withReason subscription cancellationReason].
        now rewrite Hr.
Qed.

(** The hypothesis of [reason_line_rendering] holds of the scenario. *)
Lemma reason_line_rendering_witness :
  (forall reason,
     includes reasonLabel reason = false -> includes LF reason = false ->
     reason_line_as_stated (withReason reason (jane FIRM)) "1/1/2024") /\
  exists before after : list string,
    (split_lines (getTemplateLetter (withReason EmptyString (jane FIRM)) "1/1/2024") =
       (before ++ [EmptyString; EmptyString; haltInstruction] ++ after)%list /\
     includes reasonLabel
       (getTemplateLetter (withReason EmptyString (jane FIRM)) "1/1/2024") = false) /\
    forall reason, truthy reason = true ->
      split_lines (getTemplateLetter (withReason reason (jane FIRM)) "1/1/2024") =
        (before ++ [EmptyString] ++
         split_lines ("Reason for cancellation: " ++ reason) ++
         [EmptyString; haltInstruction] ++ after)%list /\
      occurrences reasonLabel
        (getTemplateLetter (withReason reason (jane FIRM)) "1/1/2024") =
        1 + occurrences reasonLabel reason.
Proof.
  apply (reason_line_rendering (jane FIRM) "1/1/2024").
  repeat constructor.
Defined.

(** ** The tone addendum (C3) *)

Lemma tone_eqb_eq (a b : Tone) : tone_eqb a b = true <-> a = b.
Proof. destruct a, b; vm_compute; split; congruence. Qed.

Lemma addendumStem_clear (t : Tone) :
  t <> FORMAL -> template_clear (addendumStem t) = true.
Proof. destruct t; [congruence| | |]; intros _; vm_compute; reflexivity. Qed.

Lemma addendumStem_literal (t t' : Tone) (b : bool) :
  t <> FORMAL ->
  literal_occurrences (addendumStem t) (skeleton t' b) =
  if tone_eqb t' t then 1 else 0.
Proof.
  destruct t; [congruence| | |]; intros _; destruct t', b;
    vm_compute; reflexivity.
Qed.

Lemma addendumStem_in_adjustment (t : Tone) :
  includes (addendumStem t) (toneAdjustment t) = true.
Proof. destruct t; vm_compute; reflexivity. Qed.

Lemma getTemplateLetter_includes_adjustment (data : LetterData) (date : string) :
  includes (toneAdjustment (tone data)) (getTemplateLetter data date) = true.
Proof.
  assert (E : getTemplateLetter data date =
              (beforeReason data date ++ LF ++ LF ++
               reasonSlot (cancellationReason (subscription data)) ++
               LF ++ haltInstruction) ++
              toneAdjustment (tone data) ++
              (LF ++ LF ++ thanksLine ++ LF ++ LF ++ "Sincerely," ++ LF ++ LF ++
               fullName (user data))).
  { rewrite getTemplateLetter_around_reason.
    unfold afterReason, haltInstruction, thanksLine.
    rewrite !append_assoc. reflexivity. }
  rewrite E. apply includes_intro.
Qed.

(** The occurrences of the addendum of [t], without its final full stop, in
    a letter whose interpolated values do not contain that text. *)
Lemma addendumStem_occurrences (t : Tone) (data : LetterData) (date : string) :
  t <> FORMAL ->
  Forall (fun v => includes (addendumStem t) v = false) (interpolated data date) ->
  occurrences (addendumStem t) (getTemplateLetter data date) =
  if tone_eqb (tone data) t then 1 else 0.
Proof.
  intros Ht H.
  rewrite letter_occurrences by now apply addendumStem_clear.
  rewrite addendumStem_literal by exact Ht.
  rewrite occurrences_absent; [lia|].
  apply holes_absent; [|exact H].
  destruct t; [congruence| | |]; vm_compute; reflexivity.
Qed.

(** Why the hypothesis of C3 leaves the final full stop out: the template
    writes a full stop after the effective date, so an effective date that
    ends in an addendum without its full stop completes it, although no
    interpolated value contains the addendum. *)
Example effective_date_completes_addendum :
  let data :=
    mkLetterData
      (mkUser "Jane Doe" "jane@x.com" "1 Main St" EmptyString)
      (mkSubscription "Netflix" EmptyString "Premium" "Too expensive"
         ("2024-01-01. " ++ addendumStem DIRECT))
      FORMAL in
  forallb (fun v => negb (includes (addendumParagraph DIRECT) v))
          (interpolated data "1/1/2024") = true /\
  includes (addendumParagraph DIRECT) (getTemplateLetter data "1/1/2024") = true.
Proof. split; vm_compute; reflexivity. Qed.

(** C3, as stated, fails: the formal letter of a request whose address is
    worded like the direct addendum contains that addendum. *)
Lemma tone_addendum_counterexample :
  ~ tone_addendum_as_stated jane_quoting_addendum "1/1/2024".
Proof.
  intros H.
  assert (Hd : DIRECT <> FORMAL) by discriminate.
  destruct (H DIRECT Hd) as [H1 _].
  assert (C : tone jane_quoting_addendum = DIRECT)
    by (apply H1; vm_compute; reflexivity).
  discriminate C.
Qed.

(** C3, amended: take a request and a date in which no interpolated value
    contains the text of an addendum (taken without its final full stop).
    Then the claim holds as stated: an addendum is part of the letter exactly
    when it is the addendum of the request's tone; its text occurs once in
    that case and never otherwise.  The addendum of the formal tone is the
    empty string.  The addendum is the line right after the instruction to
    stop the payments, and the blank line and the thanks follow it. *)
Theorem tone_addendum_rendering (data : LetterData) (date : string) :
  (forall t, t <> FORMAL ->
     Forall (fun v => includes (addendumStem t) v = false)
            (interpolated data date)) ->
  tone_addendum_as_stated data date /\
  (forall t, t <> FORMAL ->
     occurrences (addendumStem t) (getTemplateLetter data date) =
     (if tone_eqb (tone data) t then 1 else 0)) /\
  toneAdjustment FORMAL = EmptyString /\
  exists before after,
    split_lines (getTemplateLetter data date) =
    (before ++ [haltInstruction] ++ addendumLines (tone data) ++
     [EmptyString; thanksLine] ++ after)%list.
Proof.
  intros H. split; [|split; [|split]].
  - intros t Ht.
    pose proof (addendumStem_occurrences t data date Ht (H t Ht)) as Ho.
    split.
    + intros Hi.
      assert (Hs : includes (addendumStem t) (getTemplateLetter data date) = true)
        by (eapply includes_trans; [apply addendumStem_in_adjustment | exact Hi]).
      destruct (tone_eqb (tone data) t) eqn:E; [now apply tone_eqb_eq|].
      apply includes_occurrences in Ho. congruence.
    + intros <-. apply getTemplateLetter_includes_adjustment.
  - intros t Ht. exact (addendumStem_occurrences t data date Ht (H t Ht)).
  - reflexivity.
  - rewrite getTemplateLetter_lines, afterReason_lines.
    exists ((split_lines (beforeReason data date) ++ [EmptyString]) ++
            reasonLines (cancellationReason (subscription data)) ++
            [EmptyString])%list.
    exists ([EmptyString; "Sincerely,"; EmptyString] ++
            split_lines (fullName (user data)))%list.
    rewrite <- !app_assoc. reflexivity.
Qed.

(** The hypothesis of [tone_addendum_rendering] holds of the scenario. *)
Lemma tone_addendum_rendering_witness :
  tone_addendum_as_stated (jane FIRM) "1/1/2024" /\
  (forall t, t <> FORMAL ->
     occurrences (addendumStem t) (getTemplateLetter (jane FIRM) "1/1/2024") =
     (if tone_eqb (tone (jane FIRM)) t then 1 else 0)) /\
  toneAdjustment FORMAL = EmptyString /\
  exists before after,
    split_lines (getTemplateLetter (jane FIRM) "1/1/2024") =
    (before ++ [haltInstruction] ++ addendumLines (tone (jane FIRM)) ++
     [EmptyString; thanksLine] ++ after)%list.
Proof.
  apply (tone_addendum_rendering (jane FIRM) "1/1/2024").
  intros t Ht. destruct t; [congruence| | |]; repeat constructor.
Defined.

(** ** The scenario of the specification (C5) *)



(** The letter of the scenario, line by line. *)
Example jane_firm_letter :
  split_lines (getTemplateLetter (jane FIRM) "1/1/2024") =
  [ "Jane Doe"; "1 Main St"; "jane@x.com"; EmptyString; EmptyString;
    "Date: 1/1/2024"; EmptyString;
    "RE: Cancellation of Netflix Subscription"; "Account Number: N/A";
    EmptyString; "To the Customer Service Team at Netflix,"; EmptyString;
    "I am writing to formally request the cancellation of my Premium subscription, effective 2024-01-01.";
    EmptyString; "Reason for cancellation: Too expensive"; EmptyString;
    haltInstruction; addendumParagraph FIRM; EmptyString; thanksLine;
    EmptyString; "Sincerely,"; EmptyString; "Jane Doe" ].
Proof. reflexivity. Qed.


(** ** Running the generators (C6, C7, C8, C9) *)

Lemma getTemplateLetter_run (w : World) :
  Effects.getTemplateLetter w =
  (Return (getTemplateLetter (input w) (localeDate w)), w).
Proof. reflexivity. Qed.

(** C6: the letter is a function of the request and of the date alone: two
    calls in worlds that agree on both return the same string, whatever the
    key, the model and the console are. *)
Theorem template_letter_deterministic (w1 w2 : World) :
  input w1 = input w2 -> localeDate w1 = localeDate w2 ->
  fst (Effects.getTemplateLetter w1) = fst (Effects.getTemplateLetter w2).
Proof.
  intros Hi Hd. rewrite 2!getTemplateLetter_run. cbn [fst].
  now rewrite Hi, Hd.
Qed.

(** Two worlds that differ in the key, the model and the console. *)
Lemma template_letter_deterministic_witness :
  fst (Effects.getTemplateLetter world_without_key) =
  fst (Effects.getTemplateLetter world_with_failing_model).
Proof.
  apply (template_letter_deterministic world_without_key world_with_failing_model);
    reflexivity.
Defined.

Lemma getTemplateLetter_subject (data : LetterData) (date : string) :
  exists a b,
    getTemplateLetter data date =
    a ++ LF ++
    ("RE: Cancellation of " ++ serviceName (subscription data) ++ " Subscription")
    ++ LF ++ b.
Proof.
  exists (fullName (user data) ++ LF ++
          js_or (address (user data)) EmptyString ++ LF ++
          email (user data) ++ LF ++
          js_or (phone (user data)) EmptyString ++ LF ++
          LF ++ "Date: " ++ date ++ LF).
  eexists.
  unfold getTemplateLetter.
  rewrite !append_assoc. reflexivity.
Qed.

Lemma getTemplateLetter_salutation (data : LetterData) (date : string) :
  exists a b,
    getTemplateLetter data date =
    a ++ LF ++
    ("To the Customer Service Team at " ++ serviceName (subscription data) ++ ",")
    ++ LF ++ b.
Proof.
  exists (fullName (user data) ++ LF ++
          js_or (address (user data)) EmptyString ++ LF ++
          email (user data) ++ LF ++
          js_or (phone (user data)) EmptyString ++ LF ++
          LF ++ "Date: " ++ date ++ LF ++ LF ++
          "RE: Cancellation of " ++ serviceName (subscription data) ++
          " Subscription" ++ LF ++
          "Account Number: " ++ js_or (accountNumber (subscription data)) "N/A" ++
          LF).
  eexists.
  unfold getTemplateLetter.
  rewrite !append_assoc. reflexivity.
Qed.

Lemma In_middle_line (a m b : string) :
  includes LF m = false -> In m (split_lines (a ++ LF ++ m ++ LF ++ b)).
Proof.
  intros H. rewrite 2!split_lines_LF, (split_lines_one_line m H).
  apply in_or_app. right. now left.
Qed.

(** C7: the template generator returns a string in every world and throws
    nothing.  When the full name and the service name are empty the letter
    starts with the empty name line, has the subject line and the salutation
    with nothing in place of the service name, and ends with the empty
    signature line. *)
Theorem template_letter_total (w : World) :
  exists letter,
    Effects.getTemplateLetter w = (Return letter, w) /\
    (fullName (user (input w)) = EmptyString ->
     serviceName (subscription (input w)) = EmptyString ->
     startsWith LF letter = true /\
     In "RE: Cancellation of  Subscription" (split_lines letter) /\
     In "To the Customer Service Team at ," (split_lines letter) /\
     endsWith ("Sincerely," ++ LF ++ LF) letter = true).
Proof.
  exists (getTemplateLetter (input w) (localeDate w)).
  split; [apply getTemplateLetter_run|].
  intros Hn Hs.
  split; [|split; [|split]].
  - unfold getTemplateLetter. now rewrite Hn.
  - destruct (getTemplateLetter_subject (input w) (localeDate w)) as (a & b & ->).
    rewrite Hs. now apply In_middle_line.
  - destruct (getTemplateLetter_salutation (input w) (localeDate w)) as (a & b & ->).
    rewrite Hs. now apply In_middle_line.
  - rewrite getTemplateLetter_around_reason, Hn, append_nil_r.
    do 4 apply endsWith_app_r.
    destruct (tone (input w)); vm_compute; reflexivity.
Qed.

Lemma repeat_call_fixed {A : Type} (c : JS A) (n : nat) (w : World) :
  (forall w', snd (c w') = w') -> repeat_call n c w = w.
Proof.
  intros H. induction n as [|n IH]; cbn [repeat_call]; [reflexivity|].
  now rewrite H.
Qed.

Lemma repeat_call_input {A : Type} (c : JS A) (n : nat) (w : World) :
  (forall w', input (snd (c w')) = input w') ->
  input (repeat_call n c w) = input w.
Proof.
  intros H. revert w. induction n as [|n IH]; intros w; cbn [repeat_call];
    [reflexivity|].
  now rewrite IH, H.
Qed.

Lemma generateCancellationLetter_input (w : World) :
  input (snd (Effects.generateCancellationLetter w)) = input w.
Proof.
  unfold Effects.generateCancellationLetter, bind, try_catch, env_API_KEY,
    read_input, generateContent, console_log, ret.
  destruct (credential (API_KEY w)) as [key|]; [|reflexivity].
  destruct (remote w key geminiModel (letterPrompt (input w))) as [[text|]|e];
    [destruct (truthy text)| |]; reflexivity.
Qed.

(** C8: a call of the template generator leaves the world as it found it, in
    particular the request it was handed, and so does any number of calls in
    a row; the caller that tries the model first writes to the console only
    and leaves the request as it was as well. *)
Theorem generators_keep_input (n : nat) (w : World) :
  repeat_call n Effects.getTemplateLetter w = w /\
  input (repeat_call n Effects.getTemplateLetter w) = input w /\
  input (repeat_call n Effects.generateCancellationLetter w) = input w.
Proof.
  assert (H : repeat_call n Effects.getTemplateLetter w = w)
    by (apply repeat_call_fixed; reflexivity).
  split; [exact H|]. split; [now rewrite H|].
  apply repeat_call_input, generateCancellationLetter_input.
Qed.

(** With a usable key the answer of the model is returned as it is; the
    key that reads [undefined] counts as no key. *)
Example model_answer_is_returned :
  fst (Effects.generateCancellationLetter (world_with_answer "secret" "Dear Netflix")) =
    Return "Dear Netflix" /\
  fst (Effects.generateCancellationLetter (world_with_answer "undefined" "Dear Netflix")) =
    Return (getTemplateLetter (jane FIRM) "1/1/2024") /\
  console (snd (Effects.generateCancellationLetter
                  (world_with_answer "undefined" "Dear Netflix"))) =
    [Warn "API Key missing, falling back to local template."].
Proof. repeat split. Qed.

(** C9: whenever the network-backed path fails, for want of a credential,
    by an error of the request or by an empty response text, the caller
    returns the string the template generator returns for the same request. *)
Theorem fallback_on_failure (w : World) :
  network_path_fails w ->
  fst (Effects.generateCancellationLetter w) =
    Return (getTemplateLetter (input w) (localeDate w)) /\
  fst (Effects.generateCancellationLetter w) = fst (Effects.getTemplateLetter w).
Proof.
  intros H.
  assert (G : fst (Effects.generateCancellationLetter w) =
              Return (getTemplateLetter (input w) (localeDate w))).
  { unfold Effects.generateCancellationLetter, bind, try_catch, env_API_KEY,
      read_input, generateContent, console_log, ret.
    destruct H as [Hk | key e Hk Hr | key response Hk Hr [-> | ->]];
      rewrite Hk; [reflexivity| | |]; rewrite Hr; reflexivity. }
  split; [exact G|]. now rewrite G, getTemplateLetter_run.
Qed.

(** A world whose model throws. *)
Lemma fallback_on_failure_witness :
  fst (Effects.generateCancellationLetter world_with_failing_model) =
    Return (getTemplateLetter (input world_with_failing_model)
                              (localeDate world_with_failing_model)) /\
  fst (Effects.generateCancellationLetter world_with_failing_model) =
    fst (Effects.getTemplateLetter world_with_failing_model).
Proof.
  apply (fallback_on_failure world_with_failing_model).
  apply (request_error world_with_failing_model "secret" "503"); reflexivity.
Defined.

(** ** The suggested reasons (C10) *)

Lemma trimStart_blank (s : string) : isBlank (trimStart s) = isBlank s.
Proof.
  induction s as [|c s IH]; [reflexivity|].
  cbn [trimStart isBlank].
  destruct (isWhiteSpace c) eqn:E; [exact IH|].
  cbn [isBlank]. now rewrite E.
Qed.

Lemma trimEnd_empty (s : string) :
  truthy (trimEnd s) = negb (isBlank s).
Proof.
  induction s as [|c s IH]; [reflexivity|].
  cbn [trimEnd isBlank].
  destruct (trimEnd s) as [|d r]; cbn [truthy] in IH.
  - apply (f_equal negb) in IH. rewrite negb_involutive in IH.
    rewrite <- IH. cbn [negb]. rewrite andb_true_r.
    now destruct (isWhiteSpace c).
  - cbn [truthy]. symmetry in IH. apply negb_true_iff in IH.
    now rewrite IH, andb_false_r.
Qed.

Lemma trim_nonempty (s : string) :
  (0 <? String.length (trim s))%nat = negb (isBlank s).
Proof.
  unfold trim. rewrite <- trimStart_blank, <- trimEnd_empty.
  now destruct (trimEnd (trimStart s)).
Qed.

Lemma trimEnd_idempotent (s : string) : trimEnd (trimEnd s) = trimEnd s.
Proof.
  induction s as [|c s IH]; [reflexivity|].
  cbn [trimEnd].
  destruct (trimEnd s) as [|d r] eqn:E.
  - destruct (isWhiteSpace c) eqn:W; [reflexivity|].
    cbn [trimEnd]. now rewrite W.
  - change (trimEnd (String c (String d r)))
      with (match trimEnd (String d r) with
            | EmptyString =>
                if isWhiteSpace c then EmptyString else String c EmptyString
            | String x y => String c (String x y)
            end).
    now rewrite IH.
Qed.

Lemma trimStart_fixed (s : string) :
  trimStart s = s -> trimStart (trimEnd s) = trimEnd s.
Proof.
  destruct s as [|c s]; [reflexivity|].
  cbn [trimStart trimEnd].
  destruct (isWhiteSpace c) eqn:W.
  - intros H. exfalso.
    assert (L : String.length (trimStart s) <= String.length s).
    { clear. induction s as [|d s IH]; cbn [trimStart String.length]; [lia|].
      destruct (isWhiteSpace d); cbn [String.length]; lia. }
    rewrite H in L. cbn [String.length] in L. lia.
  - intros _. destruct (trimEnd s); cbn [trimStart]; now rewrite W.
Qed.

Lemma trimStart_idempotent (s : string) : trimStart (trimStart s) = trimStart s.
Proof.
  induction s as [|c s IH]; [reflexivity|].
  cbn [trimStart]. destruct (isWhiteSpace c) eqn:W; [exact IH|].
  cbn [trimStart]. now rewrite W.
Qed.

(** A trimmed string has no white space left to trim. *)
Lemma trim_idempotent (s : string) : trim (trim s) = trim s.
Proof.
  unfold trim.
  rewrite (trimStart_fixed (trimStart s)) by apply trimStart_idempotent.
  apply trimEnd_idempotent.
Qed.

Lemma skipDigits_split (s : string) :
  exists digits, allDigits digits = true /\ s = digits ++ skipDigits s.
Proof.
  induction s as [|c s (ds & Hd & IH)]; [now exists EmptyString|].
  cbn [skipDigits]. destruct (isDigit c) eqn:E.
  - exists (String c ds). cbn [allDigits append]. rewrite E, Hd.
    split; [reflexivity | now rewrite <- IH].
  - now exists EmptyString.
Qed.

Lemma skipDigits_dot (digits rest : string) :
  allDigits digits = true ->
  skipDigits (digits ++ String "." rest) = String "." rest.
Proof.
  intros H. induction digits as [|d ds IH]; [reflexivity|].
  cbn [allDigits] in H. apply andb_true_iff in H as [H1 H2].
  cbn [append skipDigits]. rewrite H1. now apply IH.
Qed.

(** A numbered line loses its digits, the dot and the white space after it. *)
Lemma stripNumbering_numbered (c : ascii) (digits rest : string) :
  isDigit c = true -> allDigits digits = true ->
  stripNumbering (String c digits ++ "." ++ rest) = trimStart rest.
Proof.
  intros Hc Hd. cbn [append stripNumbering]. rewrite Hc.
  assert (E : skipDigits (digits ++ String "." rest) = String "." rest).
  { induction digits as [|d ds IH]; [reflexivity|].
    cbn [allDigits] in Hd. apply andb_true_iff in Hd as [H1 H2].
    cbn [append skipDigits]. rewrite H1. now apply IH. }
  now rewrite E.
Qed.

Lemma In_firstn {A : Type} (n : nat) (l : list A) (x : A) :
  In x (firstn n l) -> In x l.
Proof.
  intros H. rewrite <- (firstn_skipn n l). apply in_or_app. now left.
Qed.


Lemma chooseReasons_length (lines : list string) :
  1 <= List.length (chooseReasons lines) <= 4.
Proof.
  unfold chooseReasons.
  destruct lines as [|l lines]; cbn [List.length Nat.ltb Nat.leb].
  - cbn. lia.
  - rewrite length_firstn. cbn [List.length]. lia.
Qed.

(** A numbered answer with a blank line, an indented item and an item
    that is a number only. *)
Example parseReasons_numbered_list :
  parseReasons ("1. Too pricey" ++ LF ++ "  " ++ LF ++ " 2. Rarely used " ++ LF ++
                "3." ++ LF ++ "4.Moving" ++ LF ++ "- Other") =
  [ "Too pricey"; "2. Rarely used"; EmptyString; "Moving"; "- Other" ].
Proof. reflexivity. Qed.

(** At most four reasons are kept, and five lines of white space give the
    default reasons. *)
Example suggestions_of_an_answer :
  fst (Effects.suggestCancellationReason "Netflix"
         (world_with_answer "secret"
            ("1. Price" ++ LF ++ "2. Catalogue" ++ LF ++ "3. Moving" ++ LF ++
             "4. Time" ++ LF ++ "5. Ads"))) =
    Return ["Price"; "Catalogue"; "Moving"; "Time"] /\
  fst (Effects.suggestCancellationReason "Netflix"
         (world_with_answer "secret" (LF ++ " " ++ LF ++ LF ++ LF))) =
    Return defaultReasons.
Proof. split; reflexivity. Qed.

(** *** The words of the claim and the functions of the parser *)

Lemma unitIn_whiteSpace (c : ascii) : unitIn whiteSpaceUnits c = isWhiteSpace c.
Proof. destruct c as [[] [] [] [] [] [] [] []]; reflexivity. Qed.

Lemma unitIn_digit (c : ascii) : unitIn digitUnits c = isDigit c.
Proof. destruct c as [[] [] [] [] [] [] [] []]; reflexivity. Qed.

Lemma madeOf_whiteSpace (s : string) : madeOf whiteSpaceUnits s = isBlank s.
Proof.
  induction s as [|c s IH]; [reflexivity|].
  cbn [madeOf isBlank]. now rewrite unitIn_whiteSpace, IH.
Qed.

Lemma madeOf_digit (s : string) : madeOf digitUnits s = allDigits s.
Proof.
  induction s as [|c s IH]; [reflexivity|].
  cbn [madeOf allDigits]. now rewrite unitIn_digit, IH.
Qed.


(** What [trimStart] removes is white space. *)
Lemma trimStart_split (s : string) :
  exists a, isBlank a = true /\ s = a ++ trimStart s.
Proof.
  induction s as [|c s (a & Ha & IH)]; [now exists EmptyString|].
  cbn [trimStart]. destruct (isWhiteSpace c) eqn:W.
  - exists (String c a). cbn [isBlank append]. rewrite W, Ha.
    split; [reflexivity | now rewrite <- IH].
  - now exists EmptyString.
Qed.

(** What [trimEnd] removes is white space. *)
Lemma trimEnd_split (s : string) :
  exists b, isBlank b = true /\ s = trimEnd s ++ b.
Proof.
  induction s as [|c s (b & Hb & IH)]; [now exists EmptyString|].
  cbn [trimEnd]. destruct (trimEnd s) as [|d r].
  - cbn [append] in IH. subst b.
    destruct (isWhiteSpace c) eqn:W.
    + exists (String c s). cbn [isBlank append]. now rewrite W, Hb.
    + now exists s.
  - exists b. split; [exact Hb|]. cbn [append] in *. now rewrite <- IH.
Qed.

Lemma trimStart_blank_app (a s : string) :
  isBlank a = true -> trimStart (a ++ s) = trimStart s.
Proof.
  induction a as [|c a IH]; [reflexivity|].
  cbn [isBlank append trimStart]. intros H.
  apply andb_true_iff in H as [H1 H2]. rewrite H1. now apply IH.
Qed.

Lemma trimEnd_of_blank (b : string) : isBlank b = true -> trimEnd b = EmptyString.
Proof.
  intros H. pose proof (trimEnd_empty b) as T. rewrite H in T.
  now destruct (trimEnd b).
Qed.

Lemma trimEnd_app_blank (s b : string) :
  isBlank b = true -> trimEnd (s ++ b) = trimEnd s.
Proof.
  intros H. induction s as [|c s IH]; cbn [append].
  - now apply trimEnd_of_blank.
  - cbn [trimEnd]. now rewrite IH.
Qed.

(** What [trimEnd] leaves does not end with white space. *)
Lemma trimEnd_last (s rest : string) (c : ascii) :
  trimEnd s = rest ++ String c EmptyString -> isWhiteSpace c = false.
Proof.
  revert rest; induction s as [|x s IH]; intros rest; cbn [trimEnd].
  - destruct rest; discriminate.
  - destruct (trimEnd s) as [|d r].
    + destruct (isWhiteSpace x) eqn:W.
      * destruct rest; discriminate.
      * destruct rest as [|y rest]; cbn [append]; intros H.
        -- injection H as ->. exact W.
        -- injection H as _ H. destruct rest; discriminate.
    + destruct rest as [|y rest]; cbn [append]; intros H.
      * discriminate.
      * injection H as _ H. now apply (IH rest).
Qed.

(** A string that does not end with white space is left as it is. *)
Lemma trimEnd_fixed (s : string) :
  (forall rest c, s = rest ++ String c EmptyString -> isWhiteSpace c = false) ->
  trimEnd s = s.
Proof.
  induction s as [|x s IH]; [reflexivity|].
  intros H. cbn [trimEnd].
  rewrite IH by (intros rest c E; apply (H (String x rest) c); cbn [append];
                 now rewrite <- E).
  destruct s as [|d r]; [|reflexivity].
  now rewrite (H EmptyString x eq_refl).
Qed.

Lemma trimStart_length (s : string) :
  String.length (trimStart s) <= String.length s.
Proof.
  induction s as [|d s IH]; cbn [trimStart String.length]; [lia|].
  destruct (isWhiteSpace d); cbn [String.length]; lia.
Qed.

(** What [trim] leaves has no white space at its ends. *)
Lemma trim_no_outerWhiteSpace (s : string) : ~ outerWhiteSpace (trim s).
Proof.
  intros (c & rest & W & [E|E]); rewrite unitIn_whiteSpace in W.
  - pose proof (trimStart_fixed (trimStart s) (trimStart_idempotent s)) as F.
    fold (trim s) in F. rewrite E in F. cbn [trimStart] in F.
    rewrite W in F.
    pose proof (trimStart_length rest) as L.
    rewrite F in L. cbn [String.length] in L. lia.
  - unfold trim in E. apply trimEnd_last in E. congruence.
Qed.

(** White space, a text without white space at its ends, and white space:
    [trim] gives the text. *)
Lemma trim_of_parts (before r after : string) :
  isBlank before = true -> isBlank after = true -> ~ outerWhiteSpace r ->
  trim (before ++ r ++ after) = r.
Proof.
  intros Hb Ha Hr. unfold trim. rewrite (trimStart_blank_app _ _ Hb).
  destruct r as [|c r].
  - cbn [append]. apply trimEnd_of_blank. now rewrite trimStart_blank.
  - assert (W : isWhiteSpace c = false).
    { destruct (isWhiteSpace c) eqn:W; [|reflexivity].
      exfalso. apply Hr. exists c, r. rewrite unitIn_whiteSpace. now split; [|left]. }
    cbn [append trimStart]. rewrite W.
    change (String c (r ++ after)) with (String c r ++ after).
    rewrite (trimEnd_app_blank _ _ Ha).
    apply trimEnd_fixed. intros rest d E.
    destruct (isWhiteSpace d) eqn:D; [|reflexivity].
    exfalso. apply Hr. exists d, rest. rewrite unitIn_whiteSpace. now split; [|right].
Qed.

(** A line starts with digits and a dot, or it does not. *)
Lemma numbered_or_not (line : string) :
  (exists c digits rest,
     isDigit c = true /\ allDigits digits = true /\
     line = String c digits ++ "." ++ rest) \/
  (forall c digits rest,
     isDigit c = true -> allDigits digits = true ->
     line <> String c digits ++ "." ++ rest).
Proof.
  destruct line as [|c s]; [right; intros; discriminate|].
  destruct (isDigit c) eqn:Hc.
  - destruct (skipDigits_split s) as (ds & Hd & Hs).
    destruct (skipDigits s) as [|d rest] eqn:E.
    + right. intros c' ds' rest' _ Hd' H. cbn [append] in H.
      injection H as _ H. rewrite H, skipDigits_dot in E by exact Hd'.
      discriminate E.
    + destruct (Ascii.eqb_spec d ".") as [->|Hn].
      * left. exists c, ds, rest. repeat split; try assumption.
        cbn [append]. now rewrite Hs at 1.
      * right. intros c' ds' rest' _ Hd' H. cbn [append] in H.
        injection H as _ H. rewrite H, skipDigits_dot in E by exact Hd'.
        injection E as E _. congruence.
  - right. intros c' ds' rest' Hc' _ H. cbn [append] in H.
    injection H as H _. congruence.
Qed.

(** A line that does not start with digits and a dot is left as it is. *)
Lemma stripNumbering_unnumbered (line : string) :
  (forall c digits rest,
     isDigit c = true -> allDigits digits = true ->
     line <> String c digits ++ "." ++ rest) ->
  stripNumbering line = line.
Proof.
  intros H. destruct line as [|c s]; [reflexivity|].
  cbn [stripNumbering]. destruct (isDigit c) eqn:Hc; [|reflexivity].
  destruct (skipDigits_split s) as (ds & Hd & Hs).
  destruct (skipDigits s) as [|d rest]; [reflexivity|].
  destruct (Ascii.eqb_spec d ".") as [->|Hn].
  - exfalso. apply (H c ds rest Hc Hd). cbn [append]. now rewrite Hs at 1.
  - destruct d as [[] [] [] [] [] [] [] []]; try reflexivity.
    now contradiction Hn.
Qed.

Lemma isNumbering_digits (c : ascii) (digits : string) :
  isDigit c = true -> allDigits digits = true ->
  isNumbering (String c digits ++ ".").
Proof.
  intros Hc Hd. exists (String c digits). split; [discriminate|].
  split; [|reflexivity].
  rewrite madeOf_digit. cbn [allDigits]. now rewrite Hc, Hd.
Qed.

(** The reason the parser makes of a line is the one reason that is the line
    with its leading numbering stripped and white space trimmed. *)
Lemma cleanLine_stated (line r : string) :
  strippedAndTrimmed line r <-> r = cleanLine line.
Proof.
  unfold cleanLine. split.
  - intros (n & before & after & E & Hn & Hb & Ha & Hr).
    rewrite madeOf_whiteSpace in Hb, Ha.
    destruct Hn as [[(ds & Hne & Hd & ->) _]|[-> Hn]].
    + destruct ds as [|c ds]; [now contradiction Hne|].
      rewrite madeOf_digit in Hd. cbn [allDigits] in Hd.
      apply andb_true_iff in Hd as [Hc Hd].
      rewrite append_assoc in E. rewrite E.
      rewrite (stripNumbering_numbered c ds _ Hc Hd).
      unfold trim. rewrite trimStart_idempotent.
      symmetry. now apply trim_of_parts.
    + rewrite stripNumbering_unnumbered.
      * rewrite E. cbn [append]. symmetry. now apply trim_of_parts.
      * intros c ds rest Hc Hd H.
        apply (Hn (String c ds ++ ".") rest (isNumbering_digits c ds Hc Hd)).
        now rewrite append_assoc.
  - intros ->.
    destruct (numbered_or_not line) as [(c & ds & rest & Hc & Hd & E)|H].
    + rewrite E at 2. rewrite (stripNumbering_numbered c ds rest Hc Hd).
      unfold trim at 1. rewrite trimStart_idempotent. fold (trim rest).
      destruct (trimStart_split rest) as (a & Ha & Ea).
      destruct (trimEnd_split (trimStart rest)) as (b & Hb & Eb).
      fold (trim rest) in Eb.
      exists (String c ds ++ "."), a, b.
      split; [|split; [|split; [|split]]].
      * rewrite E, append_assoc. do 2 f_equal. now rewrite <- Eb.
      * left. split; [now apply isNumbering_digits|].
        exists rest. now rewrite append_assoc.
      * now rewrite madeOf_whiteSpace.
      * now rewrite madeOf_whiteSpace.
      * apply trim_no_outerWhiteSpace.
    + rewrite (stripNumbering_unnumbered line H).
      destruct (trimStart_split line) as (a & Ha & Ea).
      destruct (trimEnd_split (trimStart line)) as (b & Hb & Eb).
      fold (trim line) in Eb.
      exists EmptyString, a, b.
      split; [|split; [|split; [|split]]].
      * cbn [append]. now rewrite <- Eb.
      * right. split; [reflexivity|].
        intros m rest (ds & Hne & Hd & ->) E.
        destruct ds as [|c ds]; [now contradiction Hne|].
        rewrite madeOf_digit in Hd. cbn [allDigits] in Hd.
        apply andb_true_iff in Hd as [Hc Hd].
        apply (H c ds rest Hc Hd). now rewrite <- append_assoc.
      * now rewrite madeOf_whiteSpace.
      * now rewrite madeOf_whiteSpace.
      * apply trim_no_outerWhiteSpace.
Qed.


(** An indented numbering is not a leading one: the line is trimmed and
    keeps it. *)
Example indented_numbering_is_kept :
  strippedAndTrimmed " 2. Rarely used " "2. Rarely used" /\
  strippedAndTrimmed "2. Rarely used " "Rarely used" /\
  ~ strippedAndTrimmed "2. Rarely used " "2. Rarely used".
Proof.
  split; [|split].
  - now apply cleanLine_stated.
  - now apply cleanLine_stated.
  - intros H. apply cleanLine_stated in H. discriminate H.
Qed.


(** ** Beyond the claims: the layout of the letter *)

Lemma split_from_not_nil (cur s : string) : split_from cur s <> [].
Proof.
  revert cur; induction s as [|c s IH]; intros cur; cbn [split_from].
  - discriminate.
  - destruct (Ascii.eqb c "010"); [discriminate | apply IH].
Qed.

(** Joining the lines of a text with line feeds gives the text back. *)
Lemma concat_split_from (cur s : string) :
  String.concat LF (split_from cur s) = cur ++ s.
Proof.
  revert cur; induction s as [|c s IH]; intros cur; cbn [split_from].
  - cbn [String.concat]. now rewrite append_nil_r.
  - destruct (Ascii.eqb_spec c "010") as [->|_].
    + cbn [String.concat].
      destruct (split_from EmptyString s) as [|l ls] eqn:E.
      * now apply split_from_not_nil in E.
      * rewrite <- E, IH. reflexivity.
    + rewrite IH, append_assoc. reflexivity.
Qed.

Lemma concat_split_lines (s : string) : String.concat LF (split_lines s) = s.
Proof. apply concat_split_from. Qed.

Lemma beforeReason_lines (data : LetterData) (date : string) :
  split_lines (beforeReason data date) =
  (split_lines (fullName (user data)) ++
   split_lines (address (user data)) ++
   split_lines (email (user data)) ++
   split_lines (phone (user data)) ++
   [EmptyString] ++
   split_lines ("Date: " ++ date) ++
   [EmptyString] ++
   split_lines ("RE: Cancellation of " ++ serviceName (subscription data) ++
                " Subscription") ++
   split_lines ("Account Number: " ++ shownAccountNumber (subscription data)) ++
   [EmptyString] ++
   split_lines ("To the Customer Service Team at " ++
                serviceName (subscription data) ++ ",") ++
   [EmptyString] ++
   split_lines (bodyLine (subscription data)))%list.
Proof.
  assert (E : beforeReason data date =
    fullName (user data) ++ LF ++ address (user data) ++ LF ++
    email (user data) ++ LF ++ phone (user data) ++ LF ++
    EmptyString ++ LF ++ ("Date: " ++ date) ++ LF ++
    EmptyString ++ LF ++
    ("RE: Cancellation of " ++ serviceName (subscription data) ++
     " Subscription") ++ LF ++
    ("Account Number: " ++ shownAccountNumber (subscription data)) ++ LF ++
    EmptyString ++ LF ++
    ("To the Customer Service Team at " ++ serviceName (subscription data) ++
     ",") ++ LF ++
    EmptyString ++ LF ++ bodyLine (subscription data)).
  { unfold beforeReason, shownAccountNumber, bodyLine.
    rewrite !js_or_empty, !append_assoc. reflexivity. }
  rewrite E, !split_lines_LF. reflexivity.
Qed.

(** X1: the letter is its layout: its lines are the lines of [letterLayout],
    and joining those lines with line feeds gives the letter, character for
    character. *)
Theorem letter_is_its_layout (data : LetterData) (date : string) :
  split_lines (getTemplateLetter data date) = letterLayout data date /\
  getTemplateLetter data date = String.concat LF (letterLayout data date).
Proof.
  assert (L : split_lines (getTemplateLetter data date) = letterLayout data date).
  { rewrite getTemplateLetter_lines, afterReason_lines, beforeReason_lines.
    unfold letterLayout. rewrite <- !app_assoc. reflexivity. }
  split; [exact L|].
  rewrite <- L. symmetry. apply concat_split_lines.
Qed.

Lemma endsWith_append (p a : string) : endsWith p (a ++ p) = true.
Proof.
  apply endsWith_app_r. destruct p as [|c p]; cbn [endsWith].
  - reflexivity.
  - now rewrite String.eqb_refl.
Qed.

Lemma getTemplateLetter_not_empty (data : LetterData) (date : string) :
  truthy (getTemplateLetter data date) = true.
Proof.
  unfold getTemplateLetter. now destruct (fullName (user data)).
Qed.

(** X2: the letter is never empty; it opens with the line of the full name
    and closes with [Sincerely,], a blank line and the full name, whatever
    the request holds. *)
Theorem letter_opens_and_closes (data : LetterData) (date : string) :
  truthy (getTemplateLetter data date) = true /\
  startsWith (fullName (user data) ++ LF) (getTemplateLetter data date) = true /\
  endsWith ("Sincerely," ++ LF ++ LF ++ fullName (user data))
           (getTemplateLetter data date) = true.
Proof.
  split; [apply getTemplateLetter_not_empty|]. split.
  - unfold getTemplateLetter.
    rewrite <- (append_assoc (fullName (user data)) LF).
    apply startsWith_refl_app.
  - assert (E : getTemplateLetter data date =
                (beforeReason data date ++ LF ++ LF ++
                 reasonSlot (cancellationReason (subscription data)) ++
                 LF ++ haltInstruction ++ toneAdjustment (tone data) ++
                 LF ++ LF ++ thanksLine ++ LF ++ LF) ++
                ("Sincerely," ++ LF ++ LF ++ fullName (user data))).
    { rewrite getTemplateLetter_around_reason.
      unfold afterReason, haltInstruction, thanksLine.
      rewrite !append_assoc. reflexivity. }
    rewrite E. apply endsWith_append.
Qed.

(** ** Beyond the claims: the call of the model for a letter *)

(** X3: with a usable key and a response whose text is not empty, the caller
    returns that text as it is, logs nothing and leaves the world as it
    was. *)
Theorem generate_returns_model_text (w : World) (key text : string) :
  credential (API_KEY w) = Some key ->
  remote w key geminiModel (letterPrompt (input w)) = Return (Some text) ->
  truthy text = true ->
  Effects.generateCancellationLetter w = (Return text, w).
Proof.
  intros Hk Hr Ht.
  unfold Effects.generateCancellationLetter, bind, try_catch, env_API_KEY,
    read_input, generateContent, ret.
  now rewrite Hk, Hr, Ht.
Qed.

(** A world whose model answers. *)
Lemma generate_returns_model_text_witness :
  Effects.generateCancellationLetter (world_with_answer "secret" "Dear Netflix") =
  (Return "Dear Netflix", world_with_answer "secret" "Dear Netflix").
Proof.
  apply (generate_returns_model_text
           (world_with_answer "secret" "Dear Netflix") "secret" "Dear Netflix");
    reflexivity.
Defined.

(** X4: the caller never throws, whatever the model does, and the letter it
    returns is never the empty string. *)
Theorem generate_always_returns_a_letter (w : World) :
  exists letter,
    fst (Effects.generateCancellationLetter w) = Return letter /\
    truthy letter = true.
Proof.
  unfold Effects.generateCancellationLetter, bind, try_catch, env_API_KEY,
    read_input, generateContent, console_log, ret.
  destruct (credential (API_KEY w)) as [key|].
  - destruct (remote w key geminiModel (letterPrompt (input w)))
      as [[text|]|e]; [destruct (truthy text) eqn:Ht| |];
      eexists; (split; [reflexivity|]);
      first [exact Ht | apply getTemplateLetter_not_empty].
  - eexists. split; [reflexivity | apply getTemplateLetter_not_empty].
Qed.

(** X5: what the caller logs.  A missing key is warned about, an error of the
    request is logged with the error, and a response without text falls back
    without a word; nothing else of the world changes. *)
Theorem generate_logs_the_failure (w : World) :
  let w' := snd (Effects.generateCancellationLetter w) in
  (input w' = input w /\ API_KEY w' = API_KEY w /\ localeDate w' = localeDate w /\
   remote w' = remote w) /\
  console w' =
  (console w ++
   match credential (API_KEY w) with
   | None => [Warn "API Key missing, falling back to local template."]
   | Some key =>
       match remote w key geminiModel (letterPrompt (input w)) with
       | Throw e => [Error "Gemini API Error, using fallback template:" e]
       | Return _ => []
       end
   end)%list.
Proof.
  unfold Effects.generateCancellationLetter, bind, try_catch, env_API_KEY,
    read_input, generateContent, console_log, ret.
  destruct (credential (API_KEY w)) as [key|].
  - destruct (remote w key geminiModel (letterPrompt (input w)))
      as [[text|]|e]; [destruct (truthy text)| |];
      cbn [snd fst input API_KEY localeDate remote console];
      rewrite ?app_nil_r; repeat split.
  - cbn [snd fst input API_KEY localeDate remote console]. repeat split.
Qed.

(** X6: the caller asks the model one thing: two worlds with the same
    request, key and date, whose models agree on the answer to the prompt of
    the request under the usable key, yield the same letter.  Without a
    usable key the model is not asked at all. *)
Theorem generate_asks_one_question (w1 w2 : World) :
  input w1 = input w2 -> API_KEY w1 = API_KEY w2 ->
  localeDate w1 = localeDate w2 ->
  (forall key, credential (API_KEY w1) = Some key ->
     remote w1 key geminiModel (letterPrompt (input w1)) =
     remote w2 key geminiModel (letterPrompt (input w1))) ->
  fst (Effects.generateCancellationLetter w1) =
  fst (Effects.generateCancellationLetter w2).
Proof.
  destruct w1 as [i1 k1 d1 r1 c1], w2 as [i2 k2 d2 r2 c2].
  cbn [input API_KEY localeDate remote]. intros <- <- <- Hr.
  unfold Effects.generateCancellationLetter, bind, try_catch, env_API_KEY,
    read_input, generateContent, console_log, ret.
  cbv beta iota zeta delta [input API_KEY localeDate remote].
  destruct (credential k1) as [key|] eqn:E; [|reflexivity].
  rewrite <- (Hr key eq_refl).
  destruct (r1 key geminiModel (letterPrompt i1)) as [[text|]|e];
    [destruct (truthy text)| |]; reflexivity.
Qed.

(** Two worlds with a usable key whose models agree on the prompt of the
    scenario and on nothing else. *)
Lemma generate_asks_one_question_witness :
  fst (Effects.generateCancellationLetter (world_with_answer "secret" "Dear Netflix")) =
  fst (Effects.generateCancellationLetter world_answering_jane).
Proof.
  apply (generate_asks_one_question (world_with_answer "secret" "Dear Netflix")
           world_answering_jane); reflexivity.
Defined.

(** X7: every value of the request the user typed, the value of the tone,
    and the words [Not specified] in place of an empty reason, are part of
    the prompt that is sent to the model. *)
Theorem prompt_carries_the_request (data : LetterData) :
  Forall (fun v => includes v (letterPrompt data) = true) (promptValues data).
Proof.
  unfold promptValues, letterPrompt.
  repeat constructor;
    repeat first [ apply includes_startsWith; apply startsWith_refl_app
                 | apply includes_app_r ].
Qed.

(** ** Beyond the claims: the suggested reasons *)

Lemma suggestCancellationReason_run (serviceName : string) (w : World) :
  exists reasons,
    Effects.suggestCancellationReason serviceName w = (Return reasons, w) /\
    (reasons = defaultReasons \/
     exists key response,
       credential (API_KEY w) = Some key /\
       remote w key geminiModel (reasonsPrompt serviceName) = Return response /\
       reasons = firstn 4 (parseReasons (responseText response))) /\
    1 <= List.length reasons <= 4.
Proof.
  unfold Effects.suggestCancellationReason, bind, try_catch, env_API_KEY,
    generateContent, ret.
  destruct (credential (API_KEY w)) as [key|].
  - destruct (remote w key geminiModel (reasonsPrompt serviceName))
      as [response|e] eqn:Hr.
    + eexists. split; [reflexivity|]. split; [|apply chooseReasons_length].
      unfold chooseReasons.
      destruct (0 <? List.length (parseReasons (responseText response)))%nat;
        [right; now exists key, response | now left].
    + exists defaultReasons. split; [reflexivity|]. split; [now left | cbn; lia].
  - exists defaultReasons. split; [reflexivity|]. split; [now left | cbn; lia].
Qed.

(** X8: the suggestion service leaves the world as it was (it logs nothing,
    not even a failure), and what it returns depends on the key and on the
    answer of the model to the one prompt for the service name: the request
    of the form, the date and the console play no part. *)
Theorem suggestions_ask_one_question (serviceName : string) (w1 w2 : World) :
  API_KEY w1 = API_KEY w2 ->
  (forall key, credential (API_KEY w1) = Some key ->
     remote w1 key geminiModel (reasonsPrompt serviceName) =
     remote w2 key geminiModel (reasonsPrompt serviceName)) ->
  snd (Effects.suggestCancellationReason serviceName w1) = w1 /\
  fst (Effects.suggestCancellationReason serviceName w1) =
  fst (Effects.suggestCancellationReason serviceName w2).
Proof.
  intros Hk Hr. split.
  - destruct (suggestCancellationReason_run serviceName w1) as (r & -> & _).
    reflexivity.
  - unfold Effects.suggestCancellationReason, bind, try_catch, env_API_KEY,
      generateContent, ret.
    cbv beta iota zeta. rewrite <- Hk.
    destruct (credential (API_KEY w1)) as [key|] eqn:E; [|reflexivity].
    rewrite <- (Hr key eq_refl).
    destruct (remote w1 key geminiModel (reasonsPrompt serviceName));
      reflexivity.
Qed.

(** The world of the scenario and a world with another request, another
    date and a model that answers the one prompt alike. *)
Lemma suggestions_ask_one_question_witness :
  snd (Effects.suggestCancellationReason "Netflix" world_suggesting) =
    world_suggesting /\
  fst (Effects.suggestCancellationReason "Netflix" world_suggesting) =
  fst (Effects.suggestCancellationReason "Netflix"
         (mkWorld jane_without_address (Some "secret") "2/2/2025"
            (fun _ _ _ => Return (Some ("1. Too pricey" ++ LF ++ "2. Rarely used")))
            [Warn "earlier"])).
Proof.
  apply (suggestions_ask_one_question "Netflix" world_suggesting
           (mkWorld jane_without_address (Some "secret") "2/2/2025"
              (fun _ _ _ => Return (Some ("1. Too pricey" ++ LF ++ "2. Rarely used")))
              [Warn "earlier"])).
  - reflexivity.
  - intros key _. vm_compute. reflexivity.
Defined.

Lemma includes_refl (s : string) : includes s s = true.
Proof.
  apply includes_startsWith. rewrite <- (append_nil_r s) at 2.
  apply startsWith_refl_app.
Qed.

Lemma split_from_no_LF (cur s l : string) :
  includes LF cur = false -> In l (split_from cur s) -> includes LF l = false.
Proof.
  revert cur; induction s as [|c s IH]; intros cur Hc H; cbn [split_from] in H.
  - now destruct H as [<-|[]].
  - destruct (Ascii.eqb c "010") eqn:E.
    + destruct H as [<-|H]; [exact Hc | now apply (IH EmptyString)].
    + apply (IH (cur ++ String c EmptyString)); [|exact H].
      rewrite includes_LF_app, Hc. cbn [includes startsWith orb].
      now rewrite (Ascii.eqb_sym "010" c), E.
Qed.

(** No line of a text holds a line feed. *)
Lemma split_lines_no_LF (s l : string) :
  In l (split_lines s) -> includes LF l = false.
Proof. now apply split_from_no_LF. Qed.

Lemma includes_without (n r l : string) :
  includes r l = true -> includes n l = false -> includes n r = false.
Proof.
  intros Hr Hn. destruct (includes n r) eqn:E; [|reflexivity].
  rewrite <- Hn. symmetry. now apply includes_trans with r.
Qed.

Lemma trimStart_suffix (s : string) : exists a, s = a ++ trimStart s.
Proof.
  induction s as [|c s [a IH]]; [now exists EmptyString|].
  cbn [trimStart]. destruct (isWhiteSpace c).
  - exists (String c a). cbn [append]. now rewrite <- IH.
  - now exists EmptyString.
Qed.

Lemma trimEnd_prefix (s : string) : exists b, s = trimEnd s ++ b.
Proof.
  induction s as [|c s [b IH]]; [now exists EmptyString|].
  cbn [trimEnd]. destruct (trimEnd s) as [|d r].
  - destruct (isWhiteSpace c).
    + now exists (String c s).
    + exists s. reflexivity.
  - exists b. cbn [append] in *. now rewrite <- IH.
Qed.

Lemma stripNumbering_suffix (line : string) :
  exists a, line = a ++ stripNumbering line.
Proof.
  destruct line as [|c s]; [now exists EmptyString|].
  cbn [stripNumbering]. destruct (isDigit c); [|now exists EmptyString].
  destruct (skipDigits_split s) as (ds & _ & Hs).
  destruct (skipDigits s) as [|d rest]; [now exists EmptyString|].
  destruct (Ascii.eqb_spec d ".") as [->|Hd].
  - destruct (trimStart_suffix rest) as [a Ha].
    exists (String c ds ++ "." ++ a).
    rewrite Hs at 1. rewrite Ha at 1.
    cbn [append]. now rewrite !append_assoc.
  - exists EmptyString.
    destruct d as [[] [] [] [] [] [] [] []]; try reflexivity.
    now contradiction Hd.
Qed.

(** A cleaned line is a part of the line. *)
Lemma cleanLine_included (line : string) : includes (cleanLine line) line = true.
Proof.
  unfold cleanLine, trim.
  destruct (stripNumbering_suffix line) as [a Ha].
  destruct (trimStart_suffix (stripNumbering line)) as [b Hb].
  destruct (trimEnd_prefix (trimStart (stripNumbering line))) as [e He].
  rewrite Ha at 2. rewrite Hb at 2. rewrite He at 2.
  apply includes_app_r, includes_app_r, includes_app_l, includes_refl.
Qed.

Lemma parseReasons_from_line (text r : string) :
  In r (parseReasons text) ->
  exists line, In line (split_lines text) /\ r = cleanLine line.
Proof.
  unfold parseReasons. intros H.
  apply in_map_iff in H as (line & <- & H).
  apply filter_In in H as [H _]. now exists line.
Qed.

(** X9: every reason the text of a response is parsed into is a part of that
    text: the parser removes, it never writes. *)
Theorem parsed_reasons_come_from_the_text (text : string) :
  Forall (fun r => includes r text = true) (parseReasons text).
Proof.
  apply Forall_forall. intros r Hr.
  destruct (parseReasons_from_line _ _ Hr) as (line & Hl & ->).
  apply includes_trans with line; [apply cleanLine_included|].
  now apply (split_from_included EmptyString).
Qed.

(** X10: whatever the key and the model are, every reason the suggestion
    service returns is a single line: none holds a line feed. *)
Theorem suggestions_are_single_lines (serviceName : string) (w : World) :
  exists reasons,
    fst (Effects.suggestCancellationReason serviceName w) = Return reasons /\
    Forall (fun r => includes LF r = false) reasons.
Proof.
  destruct (suggestCancellationReason_run serviceName w)
    as (reasons & E & H & _).
  exists reasons. rewrite E. split; [reflexivity|].
  destruct H as [->|(key & response & _ & _ & ->)].
  - repeat constructor.
  - apply Forall_forall. intros r Hr.
    apply In_firstn in Hr.
    destruct (parseReasons_from_line _ _ Hr) as (line & Hl & ->).
    apply includes_without with line; [apply cleanLine_included|].
    now apply split_lines_no_LF with (responseText response).
Qed.

Lemma digit_not_white_space (c : ascii) :
  isDigit c = true -> isWhiteSpace c = false.
Proof.
  unfold isDigit, isWhiteSpace. cbv zeta. intros H.
  apply andb_true_iff in H as [H1 H2].
  apply Nat.leb_le in H1. apply Nat.leb_le in H2.
  apply orb_false_iff. split; [apply orb_false_iff; split|].
  - apply andb_false_iff. right. apply Nat.leb_gt. lia.
  - apply Nat.eqb_neq. lia.
  - apply Nat.eqb_neq. lia.
Qed.

Lemma digit_not_dot (c : ascii) : isDigit c = true -> c <> "."%char.
Proof. intros H ->. discriminate H. Qed.

(** X11: what the replacement of the regular expression does to a line.  A
    line that is some digits, a dot and a rest loses the digits, the dot and
    the white space the rest starts with; every other line, and so every
    line that starts with anything but a digit, is left as it is. *)
Theorem stripNumbering_removes_one_numbering (line : string) :
  (exists c digits rest,
     isDigit c = true /\ allDigits digits = true /\
     line = String c digits ++ "." ++ rest /\
     stripNumbering line = trimStart rest) \/
  ((forall c digits rest,
      isDigit c = true -> allDigits digits = true ->
      line <> String c digits ++ "." ++ rest) /\
   stripNumbering line = line).
Proof.
  destruct line as [|c s].
  - right. split; [intros; discriminate | reflexivity].
  - cbn [stripNumbering]. destruct (isDigit c) eqn:Hc.
    + destruct (skipDigits_split s) as (ds & Hd & Hs).
      destruct (skipDigits s) as [|d rest] eqn:E.
      * right. split; [|reflexivity].
        intros c' ds' rest' _ Hd' H. cbn [append] in H.
        injection H as _ H. rewrite H, skipDigits_dot in E by exact Hd'.
        discriminate E.
      * destruct (Ascii.eqb_spec d ".") as [->|Hn].
        -- left. exists c, ds, rest. repeat split; try assumption.
           cbn [append]. now rewrite Hs at 1.
        -- right. split.
           ++ intros c' ds' rest' _ Hd' H. cbn [append] in H.
              injection H as _ H. rewrite H, skipDigits_dot in E by exact Hd'.
              injection E as E _. congruence.
           ++ destruct d as [[] [] [] [] [] [] [] []]; try reflexivity.
              now contradiction Hn.
    + right. split; [|reflexivity].
      intros c' ds' rest' Hc' _ H. cbn [append] in H.
      injection H as H _. congruence.
Qed.

Lemma allDigits_no_LF (digits : string) :
  allDigits digits = true -> includes LF digits = false.
Proof.
  induction digits as [|d ds IH]; [reflexivity|].
  cbn [allDigits]. intros H. apply andb_true_iff in H as [H1 H2].
  cbn [includes startsWith]. rewrite (IH H2).
  destruct (Ascii.eqb_spec "010" d) as [<-|_]; [discriminate H1 | reflexivity].
Qed.

Lemma trim_blank (s : string) : isBlank s = true -> trim s = EmptyString.
Proof.
  intros H. pose proof (trim_nonempty s) as T. rewrite H in T.
  now destruct (trim s).
Qed.

(** X12: a response that is nothing but a numbering, some digits and a dot
    with blanks after it at most, is not taken for an empty answer: it is
    kept as a line that is not blank, stripped to nothing, and the service
    hands back one empty reason instead of the default reasons. *)
Theorem bare_numbering_gives_an_empty_reason (c : ascii) (digits blanks : string) :
  isDigit c = true -> allDigits digits = true ->
  isBlank blanks = true -> includes LF blanks = false ->
  chooseReasons (parseReasons (String c digits ++ "." ++ blanks)) = [EmptyString].
Proof.
  intros Hc Hd Hb Hl.
  assert (Hline : includes LF (String c digits ++ "." ++ blanks) = false).
  { rewrite includes_LF_app, includes_LF_app, Hl.
    rewrite (allDigits_no_LF (String c digits))
      by (cbn [allDigits]; now rewrite Hc, Hd).
    reflexivity. }
  unfold parseReasons. rewrite (split_lines_one_line _ Hline).
  cbn [filter]. rewrite trim_nonempty.
  cbn [append isBlank]. rewrite (digit_not_white_space c Hc).
  cbn [andb negb map].
  change (String c (digits ++ String "." blanks))
    with (String c digits ++ "." ++ blanks).
  rewrite (stripNumbering_numbered c digits blanks Hc Hd).
  rewrite trim_blank by (now rewrite trimStart_blank).
  reflexivity.
Qed.

(** The answer [3.] followed by a space. *)
Lemma bare_numbering_gives_an_empty_reason_witness :
  chooseReasons (parseReasons (String "3" EmptyString ++ "." ++ " ")) =
  [EmptyString].
Proof.
  apply (bare_numbering_gives_an_empty_reason "3" EmptyString " "); reflexivity.
Defined.

(** ** Beyond the claims: the form *)

(** The letter the caller returns, case by case. *)
Lemma generateCancellationLetter_outcome (w : World) :
  fst (Effects.generateCancellationLetter w) =
  Return
    match credential (API_KEY w) with
    | None => getTemplateLetter (input w) (localeDate w)
    | Some key =>
        match remote w key geminiModel (letterPrompt (input w)) with
        | Return (Some text) =>
            if truthy text then text
            else getTemplateLetter (input w) (localeDate w)
        | _ => getTemplateLetter (input w) (localeDate w)
        end
    end.
Proof.
  unfold Effects.generateCancellationLetter, bind, try_catch, env_API_KEY,
    read_input, generateContent, console_log, ret.
  destruct (credential (API_KEY w)) as [key|]; [|reflexivity].
  destruct (remote w key geminiModel (letterPrompt (input w)))
    as [[text|]|e]; [destruct (truthy text)| |]; reflexivity.
Qed.

Lemma generateCancellationLetter_letter (w : World) :
  exists letter,
    fst (Effects.generateCancellationLetter w) = Return letter /\
    truthy letter = true /\
    (network_path_fails w ->
     letter = getTemplateLetter (input w) (localeDate w)).
Proof.
  eexists. split; [apply generateCancellationLetter_outcome|]. split.
  - destruct (credential (API_KEY w)) as [key|];
      [|apply getTemplateLetter_not_empty].
    destruct (remote w key geminiModel (letterPrompt (input w)))
      as [[text|]|e]; [destruct (truthy text) eqn:Ht| |];
      first [exact Ht | apply getTemplateLetter_not_empty].
  - intros [Hk | key e Hk Hr | key response Hk Hr [-> | ->]];
      rewrite Hk; [reflexivity| | |]; rewrite Hr; reflexivity.
Qed.

Lemma suggested_reason_single_line
    (serviceName : string) (w : World) (reasons : list string) (r : string) :
  fst (Effects.suggestCancellationReason serviceName w) = Return reasons ->
  In r reasons -> includes LF r = false.
Proof.
  destruct (suggestCancellationReason_run serviceName w)
    as (reasons' & E & H & _).
  rewrite E. cbn [fst]. intros [= <-] Hr.
  destruct H as [->|(key & response & _ & _ & ->)].
  - cbn [defaultReasons In] in Hr.
    repeat destruct Hr as [<-|Hr]; try reflexivity. contradiction.
  - apply In_firstn in Hr.
    destruct (parseReasons_from_line _ _ Hr) as (line & Hl & ->).
    apply includes_without with line; [apply cleanLine_included|].
    now apply split_lines_no_LF with (responseText response).
Qed.

(** X13: edits of the form compose as writes to a record: the value typed
    into a field is the value read back, a later edit of a field overrides an
    earlier one, and edits of fields with different names commute. *)
Theorem form_edits_compose
    (name1 name2 value1 value2 : string) (st : App.State) :
  (fullName (App.userDetails (App.handleUserChange "fullName" value1 st)) = value1 /\
   email (App.userDetails (App.handleUserChange "email" value1 st)) = value1 /\
   address (App.userDetails (App.handleUserChange "address" value1 st)) = value1 /\
   phone (App.userDetails (App.handleUserChange "phone" value1 st)) = value1 /\
   serviceName (App.subDetails (App.handleSubChange "serviceName" value1 st)) = value1 /\
   accountNumber (App.subDetails (App.handleSubChange "accountNumber" value1 st)) = value1 /\
   subscriptionPlan (App.subDetails (App.handleSubChange "subscriptionPlan" value1 st)) = value1 /\
   cancellationReason (App.subDetails (App.handleSubChange "cancellationReason" value1 st)) = value1 /\
   effectiveDate (App.subDetails (App.handleSubChange "effectiveDate" value1 st)) = value1) /\
  (App.handleUserChange name1 value2 (App.handleUserChange name1 value1 st) =
   App.handleUserChange name1 value2 st /\
   App.handleSubChange name1 value2 (App.handleSubChange name1 value1 st) =
   App.handleSubChange name1 value2 st) /\
  (name1 <> name2 ->
   App.handleUserChange name1 value1 (App.handleUserChange name2 value2 st) =
   App.handleUserChange name2 value2 (App.handleUserChange name1 value1 st) /\
   App.handleSubChange name1 value1 (App.handleSubChange name2 value2 st) =
   App.handleSubChange name2 value2 (App.handleSubChange name1 value1 st)) /\
  App.handleUserChange name1 value1 (App.handleSubChange name2 value2 st) =
  App.handleSubChange name2 value2 (App.handleUserChange name1 value1 st).
Proof.
  destruct st as [[fn em ad ph] [sv ac pl re ed] t letter busy sugs err copied].
  unfold App.handleUserChange, App.handleSubChange, App.setUserDetails,
    App.setSubDetails, App.assignUser, App.assignSubscription.
  cbn [App.userDetails App.subDetails App.tone App.generatedLetter
       App.isGenerating App.suggestions App.error App.copySuccess].
  split; [repeat split|]. split; [|split].
  - split;
      repeat match goal with
             | |- context [String.eqb ?a ?b] =>
                 destruct (String.eqb_spec a b); subst
             end;
      try discriminate; reflexivity.
  - intros Hn. split;
      repeat match goal with
             | |- context [String.eqb ?a ?b] =>
                 destruct (String.eqb_spec a b); subst
             end;
      try discriminate; try congruence; reflexivity.
  - reflexivity.
Qed.

(** X14: suggestions are asked for only when the service name is longer than
    two code units; a shorter name leaves the form and the world as they
    were.  When they are asked for, between one and four replace the
    suggestions at hand.  The timer tests the name for emptiness first, which
    the length test makes redundant. *)
Theorem suggestions_need_a_long_name (st : App.State) (w : World) :
  App.suggestionTimer st w = App.fetchSuggestions st w /\
  if (2 <? String.length (serviceName (App.subDetails st)))%nat
  then exists sugs,
         App.fetchSuggestions st w = (Return (App.setSuggestions sugs st), w) /\
         1 <= List.length sugs <= 4
  else App.fetchSuggestions st w = (Return st, w).
Proof.
  split.
  - unfold App.suggestionTimer, App.fetchSuggestions.
    now destruct (serviceName (App.subDetails st)).
  - unfold App.fetchSuggestions.
    destruct (2 <? String.length (serviceName (App.subDetails st)))%nat;
      [|reflexivity].
    destruct (suggestCancellationReason_run
                (serviceName (App.subDetails st)) w) as (sugs & E & _ & L).
    exists sugs. split; [|exact L].
    unfold bind, ret. now rewrite E.
Qed.

(** X15: how a submission ends, for any generator.  When the generator
    returns, the form shows its letter and no error; when it throws, the form
    keeps the letter it had and shows the error message.  Either way the busy
    flag is off again and the fields of the form are as they were. *)
Theorem submission_settles_both_ways
    (generate : JS string) (st : App.State) (w : World) :
  fst (App.handleSubmitWith generate st w) =
  Return
    match fst (call generate (App.request st) w) with
    | Return letter =>
        App.mkState (App.userDetails st) (App.subDetails st) (App.tone st)
          letter false (App.suggestions st) None (App.copySuccess st)
    | Throw _ =>
        App.mkState (App.userDetails st) (App.subDetails st) (App.tone st)
          (App.generatedLetter st) false (App.suggestions st)
          (Some "Unable to process request. Please try again.")
          (App.copySuccess st)
    end.
Proof.
  unfold App.handleSubmitWith, bind, try_catch, ret, call, App.request.
  cbn [App.setError App.setIsGenerating App.userDetails App.subDetails
       App.tone].
  destruct (generate _) as [[letter|e] w']; reflexivity.
Qed.

Lemma handleSubmit_state (st : App.State) (w : World) :
  exists letter,
    fst (App.handleSubmit st w) =
    Return
      (App.mkState (App.userDetails st) (App.subDetails st) (App.tone st)
         letter false (App.suggestions st) None (App.copySuccess st)) /\
    fst (Effects.generateCancellationLetter (withInput (App.request st) w)) =
    Return letter /\
    truthy letter = true /\
    (network_path_fails (withInput (App.request st) w) ->
     letter = getTemplateLetter (App.request st) (localeDate w)).
Proof.
  destruct (generateCancellationLetter_letter (withInput (App.request st) w))
    as (letter & E & Ht & Hf).
  exists letter. split; [|split; [exact E | split; [exact Ht | exact Hf]]].
  unfold App.handleSubmit, App.handleSubmitWith, bind, try_catch, ret, call,
    App.request in *.
  cbn [App.setError App.setIsGenerating App.userDetails App.subDetails
       App.tone] in *.
  destruct (Effects.generateCancellationLetter _) as [[l|e] w'];
    cbn [fst] in E; [|discriminate E].
  injection E as ->. reflexivity.
Qed.

(** X16: a submission of the form never ends in the error message: the
    generator catches what the model throws.  The form then shows the letter
    the generator returned for the request built from its fields, which is
    not empty and owes nothing to the letter shown before; the busy flag is
    off and the fields, the suggestions and the copy mark are as they
    were. *)
Theorem submission_shows_a_letter (st : App.State) (w : World) :
  exists letter,
    fst (App.handleSubmit st w) =
    Return
      (App.mkState (App.userDetails st) (App.subDetails st) (App.tone st)
         letter false (App.suggestions st) None (App.copySuccess st)) /\
    fst (Effects.generateCancellationLetter (withInput (App.request st) w)) =
    Return letter /\
    truthy letter = true.
Proof.
  destruct (handleSubmit_state st w) as (letter & H1 & H2 & H3 & _).
  now exists letter.
Qed.

(** X17: when the network-backed path fails for the request of the form, the
    letter the form shows after a submission is the template letter of its
    fields at the date of the world. *)
Theorem submission_without_network_shows_the_template
    (st : App.State) (w : World) :
  network_path_fails (withInput (App.request st) w) ->
  App.generatedLetter (App.settle (App.handleSubmit st) st w) =
  getTemplateLetter (App.request st) (localeDate w).
Proof.
  intros H. destruct (handleSubmit_state st w) as (letter & E & _ & _ & Hf).
  unfold App.settle. rewrite E. cbn [App.generatedLetter]. now apply Hf.
Qed.

(** The form of the scenario, submitted in a world without a key. *)
Lemma submission_without_network_shows_the_template_witness :
  App.generatedLetter (App.settle (App.handleSubmit jane_form) jane_form
                         world_without_key) =
  getTemplateLetter (App.request jane_form) (localeDate world_without_key).
Proof.
  apply (submission_without_network_shows_the_template jane_form
           world_without_key).
  apply credential_missing. reflexivity.
Defined.

(** X18: from a suggestion to the letter.  A reason the suggestion service
    returned that is not empty, once picked and submitted while the
    network-backed path fails, is in the letter as the line
    [Reason for cancellation: ] followed by that reason, in one line. *)
Theorem picked_suggestion_reaches_the_letter
    (serviceName sug : string) (reasons : list string)
    (st : App.State) (w w' : World) :
  fst (Effects.suggestCancellationReason serviceName w) = Return reasons ->
  In sug reasons -> truthy sug = true ->
  network_path_fails (withInput (App.request (App.pickSuggestion sug st)) w') ->
  In ("Reason for cancellation: " ++ sug)
     (split_lines
        (App.generatedLetter
           (App.settle (App.handleSubmit (App.pickSuggestion sug st))
                       (App.pickSuggestion sug st) w'))).
Proof.
  intros Hs Hin Ht Hf.
  destruct (handleSubmit_state (App.pickSuggestion sug st) w')
    as (letter & E & _ & _ & Hl).
  unfold App.settle. rewrite E. cbn [App.generatedLetter].
  rewrite (Hl Hf), getTemplateLetter_lines.
  apply in_or_app. right. apply in_or_app. left.
  cbn [App.request App.pickSuggestion App.setSubDetails App.subDetails
       subscription cancellationReason].
  unfold reasonLines. rewrite Ht.
  rewrite split_lines_one_line; [now left|].
  rewrite includes_LF_app.
  now rewrite (suggested_reason_single_line _ _ _ _ Hs Hin).
Qed.

(** The first suggestion for Netflix, picked in the form of the scenario and
    submitted without a key. *)
Lemma picked_suggestion_reaches_the_letter_witness :
  In ("Reason for cancellation: " ++ "Too pricey")
     (split_lines
        (App.generatedLetter
           (App.settle (App.handleSubmit (App.pickSuggestion "Too pricey" jane_form))
                       (App.pickSuggestion "Too pricey" jane_form)
                       world_without_key))).
Proof.
  apply (picked_suggestion_reaches_the_letter "Netflix" "Too pricey"
           ["Too pricey"; "Rarely used"] jane_form world_suggesting
           world_without_key).
  - vm_compute. reflexivity.
  - simpl. tauto.
  - reflexivity.
  - apply credential_missing. reflexivity.
Defined.

(** X19: copying.  While the form shows no letter the copy button does
    nothing, whatever the browser.  After a submission the form shows a
    letter and the button never does nothing: where the clipboard is
    undefined the handler throws before the copy mark is set, and the
    clipboard is as it was; otherwise the copy mark is set without waiting
    for the write, so that a rejected write leaves the clipboard as it was
    under a set copy mark, and only a fulfilled write puts the whole letter
    on the clipboard, whatever was there. *)
Theorem copy_after_submission
    (st : App.State) (w : World) (clipboard : option string) :
  let shown := App.settle (App.handleSubmit st) st w in
  App.generatedLetter shown <> EmptyString /\
  (exists e,
     App.copyToClipboard shown App.ClipboardUndefined clipboard =
     (Throw e, clipboard)) /\
  App.copyToClipboard shown App.WriteRejected clipboard =
    (Return (App.setCopySuccess true shown), clipboard) /\
  App.copyToClipboard shown App.WriteFulfilled clipboard =
    (Return (App.setCopySuccess true shown),
     Some (App.generatedLetter shown)) /\
  (forall st0 writeText,
     App.generatedLetter st0 = EmptyString ->
     App.copyToClipboard st0 writeText clipboard = (Return st0, clipboard)).
Proof.
  cbv zeta.
  destruct (handleSubmit_state st w) as (letter & E & _ & Ht & _).
  unfold App.settle. rewrite E. cbn [fst].
  unfold App.copyToClipboard. cbn [App.generatedLetter]. rewrite Ht.
  cbn [negb].
  split; [intros ->; discriminate Ht|].
  split; [now eexists|]. split; [reflexivity|]. split; [reflexivity|].
  intros st0 writeText H. now rewrite H.
Qed.

Lemma suggestions_need_a_long_name_aux (st : App.State) (w : World) :
  App.suggestionTimer st w = (Return st, w) \/
  exists sugs,
    App.suggestionTimer st w = (Return (App.setSuggestions sugs st), w) /\
    1 <= List.length sugs <= 4 /\
    Forall (fun r => includes LF r = false) sugs.
Proof.
  unfold App.suggestionTimer, App.fetchSuggestions.
  destruct (truthy (serviceName (App.subDetails st))); [|now left].
  destruct (2 <? String.length (serviceName (App.subDetails st)))%nat;
    [|now left].
  destruct (suggestCancellationReason_run
              (serviceName (App.subDetails st)) w) as (sugs & E & _ & L).
  right. exists sugs. unfold bind, ret. rewrite E.
  split; [reflexivity|]. split; [exact L|].
  apply Forall_forall. intros r Hr.
  apply (suggested_reason_single_line
           (serviceName (App.subDetails st)) w sugs r); [now rewrite E | exact Hr].
Qed.

(** What every state of the form satisfies: no error is shown, and there
    are at most four suggestions, each of one line. *)
Lemma dispatch_keeps (ev : App.Event) (w : World) (st : App.State) :
  App.error st = None /\ List.length (App.suggestions st) <= 4 /\
  Forall (fun r => includes LF r = false) (App.suggestions st) ->
  App.error (App.dispatch ev w st) = None /\
  List.length (App.suggestions (App.dispatch ev w st)) <= 4 /\
  Forall (fun r => includes LF r = false) (App.suggestions (App.dispatch ev w st)).
Proof.
  intros (He & Hl & Hf).
  destruct ev as [n v|n v|i|t|v| | |writeText|]; cbn [App.dispatch];
    try (repeat split; assumption).
  - destruct (nth_error (App.suggestions st) i); repeat split; assumption.
  - unfold App.settle.
    destruct (suggestions_need_a_long_name_aux st w) as [E|(sugs & E & L & F)];
      rewrite E; cbn [fst]; [repeat split; assumption|].
    cbn [App.setSuggestions App.error App.suggestions].
    repeat split; [assumption | lia | assumption].
  - unfold App.settle.
    destruct (handleSubmit_state st w) as (letter & E & _).
    rewrite E. cbn [App.error App.suggestions]. repeat split; assumption.
  - unfold App.copyToClipboard.
    destruct (negb (truthy (App.generatedLetter st))), writeText;
      repeat split; assumption.
Qed.

(** X20: through any sequence of events, each handled in the world of its
    moment, the form never shows the error message, and it never holds more
    than four suggestions or a suggestion of more than one line. *)
Theorem form_keeps_its_invariant
    (events : list (App.Event * World)) (today : string) :
  App.error (App.run events (App.initialState today)) = None /\
  List.length (App.suggestions (App.run events (App.initialState today))) <= 4 /\
  Forall (fun r => includes LF r = false)
         (App.suggestions (App.run events (App.initialState today))).
Proof.
  assert (G : forall st,
             App.error st = None /\ List.length (App.suggestions st) <= 4 /\
             Forall (fun r => includes LF r = false) (App.suggestions st) ->
             App.error (App.run events st) = None /\
             List.length (App.suggestions (App.run events st)) <= 4 /\
             Forall (fun r => includes LF r = false)
                    (App.suggestions (App.run events st))).
  { induction events as [|[ev w] events IH]; intros st H; cbn [App.run].
    - exact H.
    - apply IH. now apply dispatch_keeps. }
  apply G. cbn. repeat split; [lia | constructor].
Qed.
